(** * The event dispatcher of the triage actions: [src/common/Action.ts]

    A shallow embedding of the abstract class [Action] and of its entry
    point [run].  The class talks to a handful of collaborators (the
    ambient [context] of the GitHub event, the inputs of the workflow,
    the telemetry handle, the error-reporting channel, the handler hooks
    a concrete bot overrides).  Their answers are gathered in a record
    [Env]; every call that is visible from the outside is recorded in a
    trace of [Event]s, and a JavaScript exception is an explicit
    [Threw] result.

    What the embedding takes for granted:
    - the answers of the collaborators do not change during a run;
    - every promise the run awaits settles: a hook fulfils or rejects;
    - the two client constructors only store their arguments;
    - [safeLog], [setFailed], [console.log], [getNumRequests] and
      [String(e)] return;
    - a call of the telemetry handle returns or throws, the
      error-reporting channel and the rate-limit request fulfil or
      reject. *)

From Stdlib Require Import ZArith QArith String Ascii List Bool DecimalString.
Import ListNotations.
Close Scope Q_scope.
Open Scope string_scope.

(** ** JavaScript values that travel through [throw] and [catch] *)

(** A thrown value is [null], [undefined], or a value on which the
    properties [message] and [stack] can be read (an [Error], or a
    primitive for which both reads give [undefined]); [str] is what
    [String(e)] returns for it. *)
Inductive JsValue : Type :=
| JsNull
| JsUndefined
| JsObj (message stack : option string) (str : string).

(** [e?.message] and [e?.stack]. *)
Definition opt_message (e : JsValue) : option string :=
  match e with JsObj m _ _ => m | _ => None end.

Definition opt_stack (e : JsValue) : option string :=
  match e with JsObj _ s _ => s | _ => None end.

(** [String(e)]. *)
Definition js_String (e : JsValue) : string :=
  match e with
  | JsNull => "null"
  | JsUndefined => "undefined"
  | JsObj _ _ s => s
  end.

(** Truthiness of a value that is a string or [undefined]: the empty
    string and [undefined] are falsy. *)
Definition truthy_str (o : option string) : bool :=
  match o with Some s => negb (s =? "") | None => false end.

(** [o || d] for such a value. *)
Definition js_or (o : option string) (d : string) : string :=
  match o with
  | Some s => if truthy_str o then s else d
  | None => d
  end.

(** A string-or-undefined value inside a template literal or after
    ['...' +]. *)
Definition interp (o : option string) : string :=
  match o with Some s => s | None => "undefined" end.

(** Truthiness of a number-or-undefined value ([0] is falsy). *)
Definition truthy_num (o : option Z) : bool :=
  match o with Some n => negb (n =? 0)%Z | None => false end.

(** ['' + n] for a number-or-undefined value. *)
Definition num_to_string (o : option Z) : string :=
  match o with
  | Some n => NilZero.string_of_int (Z.to_int n)
  | None => "undefined"
  end.

(** [x === 'literal'] for a string-or-undefined value. *)
Definition is_str (o : option string) (lit : string) : bool :=
  match o with Some s => s =? lit | None => false end.

Definition nl : string := String "010"%char "".

(** JavaScript numbers that are only passed along (counters, ratios). *)
Definition number : Type := Q.

(** ** The data of one run *)

Record Repo := { repo_owner : string; repo_name : string }.

Record PayloadIssue := { pi_number : Z }.
Record PayloadComment := { comment_body : string }.
Record PayloadLabel := { label_name : string }.
Record PayloadUser := { user_login : string }.

(** [context.payload]: the fields [run] reads. *)
Record Payload := {
  payload_action : option string;
  payload_issue : option PayloadIssue;
  payload_comment : option PayloadComment;
  payload_label : option PayloadLabel;
  payload_assignee : option PayloadUser
}.

(** The ambient [context] of [@actions/github].  [ctx_issue_number] is
    what [context.issue.number] evaluates to; [ctx_repo] is
    [context.repo]. *)
Record Context := {
  ctx_eventName : string;
  ctx_payload : Payload;
  ctx_repo : Repo;
  ctx_actor : string;
  ctx_issue_number : option Z
}.

(** [errorLoggingIssue] of [./utils], when it is defined. *)
Record ErrorLoggingIssue := {
  eli_repo : string;
  eli_owner : string;
  eli_issue : Z
}.

(** [new OctoKit(token, context.repo, { readonly })]. *)
Record OctoKit := {
  ok_token : string;
  ok_params : Repo;
  ok_readonly : bool
}.

(** [new OctoKitIssue(token, context.repo, { number }, { readonly })]. *)
Record OctoKitIssue := {
  oki_token : string;
  oki_params : Repo;
  oki_number : Z;
  oki_readonly : bool
}.

(** The argument of [trackMetric]. *)
Record Telemetry := { tm_name : string; tm_value : number }.

(** The [properties] object [trackMetric] adds. *)
Record MetricProperties := {
  prop_repo : string;
  prop_issue : string;
  prop_id : string;
  prop_user : string
}.

(** What the telemetry handle receives: [{...telemetry, properties}]. *)
Record MetricTelemetry := {
  mt_name : string;
  mt_value : number;
  mt_properties : MetricProperties
}.

(** The object [getRateLimit] resolves to. *)
Record Usage := { core : number; graphql : number; search : number }.

(** ** Results, promises and the trace *)

(** A call either returns or throws. *)
Inductive outcome (A : Type) : Type :=
| Returned (a : A)
| Threw (e : JsValue).
Arguments Returned {A} a.
Arguments Threw {A} e.

(** A promise, once settled. *)
Inductive Promise (A : Type) : Type :=
| Fulfilled (a : A)
| Rejected (e : JsValue).
Arguments Fulfilled {A} a.
Arguments Rejected {A} e.

(** [p.then(f, g)] with callbacks that return. *)
Definition then2 {A B : Type} (p : Promise A) (f : A -> B) (g : JsValue -> B)
  : Promise B :=
  match p with
  | Fulfilled a => Fulfilled (f a)
  | Rejected e => Fulfilled (g e)
  end.

(** A call of one of the ten handler hooks, with its arguments. *)
Inductive HookCall : Type :=
| OnTriggered (octokit : OctoKit)
| OnEdited (issue : OctoKitIssue)
| OnLabeled (issue : OctoKitIssue) (label : string)
| OnAssigned (issue : OctoKitIssue) (assignee : string)
| OnUnassigned (issue : OctoKitIssue) (assignee : string)
| OnOpened (issue : OctoKitIssue)
| OnReopened (issue : OctoKitIssue)
| OnClosed (issue : OctoKitIssue)
| OnMilestoned (issue : OctoKitIssue)
| OnCommented (issue : OctoKitIssue) (comment actor : string).

(** What a run does that can be seen from outside it. *)
Inductive Event : Type :=
| EvConsoleLog (line : string)
| EvSafeLog (msg : string)
| EvGetAuthenticated (token : string)
| EvHook (h : HookCall)
| EvLogErrorToIssue (rendered : string) (automated : bool) (token : string)
| EvTrackException (e : JsValue)
| EvSetFailed (msg : option string)
| EvTrackMetric (t : Telemetry)
| EvSinkTrackMetric (m : MetricTelemetry)
| EvGetRateLimit (token : string).

(** The telemetry handle [aiHandle]; each call returns or throws. *)
Record TelemetryClient := {
  sink_trackMetric : MetricTelemetry -> outcome unit;
  sink_trackException : JsValue -> outcome unit
}.

(** The response of [users.getAuthenticated()]: [v.data.name]. *)
Record AuthResponse := { data_name : string }.

(** The collaborators of one process run, as [Action.ts] imports them.
    Their code is outside the class; a run sees their answers. *)
Record Env := {
  (* [context] of [@actions/github] *)
  context : Context;
  (* [errorLoggingIssue] of [./utils]; [None] when it is undefined *)
  errorLoggingIssue : option ErrorLoggingIssue;
  (* the inputs of the workflow, as [getInput] of [@actions/core]
     reads them *)
  inputs : string -> string;
  (* [aiHandle] of [./telemetry]; [None] when it is undefined *)
  aiHandle : option TelemetryClient;
  (* [new GitHub(token).users.getAuthenticated()] *)
  getAuthenticated : string -> Promise AuthResponse;
  (* [logErrorToIssue(rendered, automated, token)] of [./utils] *)
  logErrorToIssue : string -> bool -> string -> Promise unit;
  (* [getNumRequests()] of [../api/octokit] at the end of the run *)
  getNumRequests : number;
  (* [getRateLimit(token)] of [./utils] *)
  getRateLimit : string -> Promise Usage;
  (* [uuid()] *)
  uuid : string;
  (* the stack the engine records for an error with this header line *)
  captureStack : string -> string
}.

(** A concrete bot: its [id] and the ten hooks. *)
Record Bot := {
  bot_id : string;
  onTriggered : OctoKit -> Promise unit;
  onEdited : OctoKitIssue -> Promise unit;
  onLabeled : OctoKitIssue -> string -> Promise unit;
  onAssigned : OctoKitIssue -> string -> Promise unit;
  onUnassigned : OctoKitIssue -> string -> Promise unit;
  onOpened : OctoKitIssue -> Promise unit;
  onReopened : OctoKitIssue -> Promise unit;
  onClosed : OctoKitIssue -> Promise unit;
  onMilestoned : OctoKitIssue -> Promise unit;
  onCommented : OctoKitIssue -> string -> string -> Promise unit
}.

(** An instance of the class: the bot and the two private fields. *)
Record Action := {
  bot : Bot;
  username : Promise string;
  token : string
}.

(** ** The monad: a trace and a result *)

Definition M (A : Type) : Type := (list Event * outcome A)%type.

Definition ret {A : Type} (a : A) : M A := ([], Returned a).

Definition throw {A : Type} (e : JsValue) : M A := ([], Threw e).

Definition bind {A B : Type} (c : M A) (k : A -> M B) : M B :=
  match c with
  | (t, Returned a) => let (t', r) := k a in ((t ++ t')%list, r)
  | (t, Threw e) => (t, Threw e)
  end.

Definition emit (ev : Event) : M unit := ([ev], Returned tt).

Definition lift {A : Type} (r : outcome A) : M A := ([], r).

(** [await p]. *)
Definition await {A : Type} (p : Promise A) : M A :=
  match p with
  | Fulfilled a => ret a
  | Rejected e => throw e
  end.

(** [try { c } catch (e) { h e }]. *)
Definition try_catch {A : Type} (c : M A) (h : JsValue -> M A) : M A :=
  match c with
  | (t, Returned a) => (t, Returned a)
  | (t, Threw e) => let (t', r) := h e in ((t ++ t')%list, r)
  end.

Declare Scope action_scope.
Delimit Scope action_scope with action.
Notation "x <- c1 ;; c2" := (bind c1 (fun x => c2))
  (at level 61, c1 at next level, right associativity) : action_scope.
Notation "c1 ;; c2" := (bind c1 (fun _ => c2))
  (at level 61, right associativity) : action_scope.
Open Scope action_scope.

Definition trace_of {A : Type} (c : M A) : list Event := fst c.
Definition result_of {A : Type} (c : M A) : outcome A := snd c.

(** ** The helpers imported by the class *)

(** [Error(msg)]: the engine fills in the stack. *)
Definition mkError (env : Env) (name msg : string) : JsValue :=
  let header := name ++ ": " ++ msg in
  JsObj (Some msg) (Some (captureStack env header)) header.

(** Reading property [prop] of [null] or [undefined]. *)
Definition nullish_read (env : Env) (prop what : string) : JsValue :=
  mkError env "TypeError"
    ("Cannot read property '" ++ prop ++ "' of " ++ what).

(** [getInput(name)] of [@actions/core]: the empty string when the
    input is not set. *)
Definition getInput (env : Env) (name : string) : string := inputs env name.

(** Modelled from the spec: [getRequiredInput] of [./utils] is missing
    from the sources; the configuration reader resolves a required
    input from the ambient environment and its absence is a fatal
    configuration error. *)
Definition getRequiredInput (env : Env) (name : string) : M string :=
  let v := getInput env name in
  if v =? "" then
    throw (mkError env "Error" ("Input required and not supplied: " ++ name))
  else ret v.

(** Modelled from the spec: [safeLog] of [./utils] is missing from the
    sources; the basic log sink accepts plain text.  The event records
    the text [safeLog] is called with. *)
Definition safeLog (msg : string) : M unit := emit (EvSafeLog msg).

(** ** The class [Action] *)

(** The field initialiser of [token], then the constructor. *)
Definition new_Action (env : Env) (b : Bot) : M Action :=
  tok <- getRequiredInput env "token" ;;
  emit (EvConsoleLog ("::stop-commands::" ++ uuid env)) ;;
  emit (EvGetAuthenticated tok) ;;
  ret {| bot := b;
         username := then2 (getAuthenticated env tok) data_name
                           (fun _ => "unknown");
         token := tok |}.

(** [trackMetric(telemetry)].  [EvTrackMetric] marks the call of the
    method itself, [EvSinkTrackMetric] the call of the handle. *)
Definition trackMetric (act : Action) (env : Env) (telemetry : Telemetry)
  : M unit :=
  emit (EvTrackMetric telemetry) ;;
  match aiHandle env with
  | Some handle =>
      let r := ctx_repo (context env) in
      user <- await (username act) ;;
      let m := {| mt_name := tm_name telemetry;
                  mt_value := tm_value telemetry;
                  mt_properties :=
                    {| prop_repo := repo_owner r ++ "/" ++ repo_name r;
                       prop_issue :=
                         "" ++ num_to_string (ctx_issue_number (context env));
                       prop_id := bot_id (bot act);
                       prop_user := user |} |} in
      emit (EvSinkTrackMetric m) ;;
      lift (sink_trackMetric handle m)
  | None => ret tt
  end.

(** The template of [error]. *)
Definition render (message user id : string) : string :=
  nl ++ "Message: " ++ message ++ nl ++ nl ++
  "Actor: " ++ user ++ nl ++ nl ++
  "ID: " ++ id ++ nl.

(** [error.message] where [error] may be any caught value. *)
Definition read_message (env : Env) (e : JsValue) : M (option string) :=
  match e with
  | JsNull => throw (nullish_read env "message" "null")
  | JsUndefined => throw (nullish_read env "message" "undefined")
  | JsObj m _ _ => ret m
  end.

(** The [message] field of [details]. *)
Definition details_message (e : JsValue) : string :=
  interp (opt_message e) ++ nl ++ interp (opt_stack e).

(** [error(error)].  The object [details] is local; of its fields the
    template reads [message], [user] and [id]. *)
Definition error (act : Action) (env : Env) (e : JsValue) : M unit :=
  msg <- read_message env e ;;
  user <- await (username act) ;;
  let rendered := render (details_message e) user (bot_id (bot act)) in
  emit (EvLogErrorToIssue rendered true (token act)) ;;
  await (logErrorToIssue env rendered true (token act)) ;;
  match aiHandle env with
  | Some handle =>
      emit (EvTrackException e) ;; lift (sink_trackException handle e)
  | None => ret tt
  end ;;
  emit (EvSetFailed msg).

(** [await this.onX(...)]. *)
Definition call_hook (act : Action) (h : HookCall) : M unit :=
  emit (EvHook h) ;;
  await (match h with
         | OnTriggered o => onTriggered (bot act) o
         | OnEdited i => onEdited (bot act) i
         | OnLabeled i l => onLabeled (bot act) i l
         | OnAssigned i a => onAssigned (bot act) i a
         | OnUnassigned i a => onUnassigned (bot act) i a
         | OnOpened i => onOpened (bot act) i
         | OnReopened i => onReopened (bot act) i
         | OnClosed i => onClosed (bot act) i
         | OnMilestoned i => onMilestoned (bot act) i
         | OnCommented i c a => onCommented (bot act) i c a
         end).

(** [context.payload.comment.body], [context.payload.label.name] and
    [context.payload.assignee.login]. *)
Definition read_comment_body (env : Env) : M string :=
  match payload_comment (ctx_payload (context env)) with
  | Some c => ret (comment_body c)
  | None => throw (nullish_read env "body" "undefined")
  end.

Definition read_label_name (env : Env) : M string :=
  match payload_label (ctx_payload (context env)) with
  | Some l => ret (label_name l)
  | None => throw (nullish_read env "name" "undefined")
  end.

Definition read_assignee_login (env : Env) : M string :=
  match payload_assignee (ctx_payload (context env)) with
  | Some u => ret (user_login u)
  | None => throw (nullish_read env "login" "undefined")
  end.

(** The [switch] on [context.payload.action]. *)
Definition route_issues (act : Action) (env : Env) (octokit : OctoKitIssue)
  : M unit :=
  let action := payload_action (ctx_payload (context env)) in
  if is_str action "opened" then call_hook act (OnOpened octokit)
  else if is_str action "reopened" then call_hook act (OnReopened octokit)
  else if is_str action "closed" then call_hook act (OnClosed octokit)
  else if is_str action "labeled" then
    name <- read_label_name env ;; call_hook act (OnLabeled octokit name)
  else if is_str action "assigned" then
    login <- read_assignee_login env ;;
    call_hook act (OnAssigned octokit login)
  else if is_str action "unassigned" then
    login <- read_assignee_login env ;;
    call_hook act (OnUnassigned octokit login)
  else if is_str action "edited" then call_hook act (OnEdited octokit)
  else if is_str action "milestoned" then call_hook act (OnMilestoned octokit)
  else throw (mkError env "Error" ("Unexpected action: " ++ interp action)).

(** The body of the [try] block of [run]. *)
Definition route (act : Action) (env : Env) : M unit :=
  tok <- getRequiredInput env "token" ;;
  let readonly := negb (getInput env "readonly" =? "") in
  let issue := ctx_issue_number (context env) in
  let triggered :=
    call_hook act
      (OnTriggered {| ok_token := tok;
                      ok_params := ctx_repo (context env);
                      ok_readonly := readonly |}) in
  match issue with
  | Some n =>
      if truthy_num issue then
        let octokit := {| oki_token := tok;
                          oki_params := ctx_repo (context env);
                          oki_number := n;
                          oki_readonly := readonly |} in
        if ctx_eventName (context env) =? "issue_comment" then
          body <- read_comment_body env ;;
          call_hook act (OnCommented octokit body (ctx_actor (context env)))
        else if ctx_eventName (context env) =? "issues" then
          route_issues act env octokit
        else ret tt
      else triggered
  | None => triggered
  end.

(** The text of the last-resort log line:
    [e?.stack || e?.message || String(e)]. *)
Definition fallback_text (e : JsValue) : string :=
  js_or (opt_stack e) (js_or (opt_message e) (js_String e)).

(** The [catch (e)] block of [run]. *)
Definition on_caught (act : Action) (env : Env) (e : JsValue) : M unit :=
  try_catch (error act env e) (fun _ => safeLog (fallback_text e)).

(** The four [trackMetric] calls that end [run]. *)
Definition emit_metrics (act : Action) (env : Env) : M unit :=
  trackMetric act env
    {| tm_name := "octokit_request_count"; tm_value := getNumRequests env |} ;;
  emit (EvGetRateLimit (token act)) ;;
  usage <- await (getRateLimit env (token act)) ;;
  trackMetric act env {| tm_name := "usage_core"; tm_value := core usage |} ;;
  trackMetric act env
    {| tm_name := "usage_graphql"; tm_value := graphql usage |} ;;
  trackMetric act env {| tm_name := "usage_search"; tm_value := search usage |}.

(** The test that opens [run]: the event is on the error logging
    issue. *)
Definition refuses (env : Env) : bool :=
  match errorLoggingIssue env with
  | Some eli =>
      (repo_name (ctx_repo (context env)) =? eli_repo eli)
      && (repo_owner (ctx_repo (context env)) =? eli_owner eli)
      && match payload_issue (ctx_payload (context env)) with
         | Some i => (pi_number i =? eli_issue eli)%Z
         | None => false
         end
  | None => false
  end.

Definition refusal : string :=
  "refusing to run on error logging issue to prevent cascading errors".

(** [run()]. *)
Definition run (act : Action) (env : Env) : M unit :=
  if refuses env then safeLog refusal
  else
    try_catch (route act env) (on_caught act env) ;;
    emit_metrics act env.

(** [Error('not implemented')]. *)
Definition not_implemented (env : Env) : JsValue :=
  mkError env "Error" "not implemented".

(** The hooks of the abstract class: each one rejects with
    [Error('not implemented')]. *)
Definition default_bot (env : Env) (id : string) : Bot :=
  {| bot_id := id;
     onTriggered := fun _ => Rejected (not_implemented env);
     onEdited := fun _ => Rejected (not_implemented env);
     onLabeled := fun _ _ => Rejected (not_implemented env);
     onAssigned := fun _ _ => Rejected (not_implemented env);
     onUnassigned := fun _ _ => Rejected (not_implemented env);
     onOpened := fun _ => Rejected (not_implemented env);
     onReopened := fun _ => Rejected (not_implemented env);
     onClosed := fun _ => Rejected (not_implemented env);
     onMilestoned := fun _ => Rejected (not_implemented env);
     onCommented := fun _ _ _ => Rejected (not_implemented env) |}.

(** ** Reading a trace *)

Definition hooks_of (t : list Event) : list HookCall :=
  flat_map (fun ev => match ev with EvHook h => [h] | _ => [] end) t.

Definition tracked (t : list Event) : list Telemetry :=
  flat_map (fun ev => match ev with EvTrackMetric m => [m] | _ => [] end) t.

Definition sink_samples (t : list Event) : list MetricTelemetry :=
  flat_map (fun ev => match ev with EvSinkTrackMetric m => [m] | _ => [] end) t.

Definition reports (t : list Event) : list (string * bool * string) :=
  flat_map (fun ev => match ev with
                      | EvLogErrorToIssue r a k => [(r, a, k)]
                      | _ => []
                      end) t.

Definition failures (t : list Event) : list (option string) :=
  flat_map (fun ev => match ev with EvSetFailed m => [m] | _ => [] end) t.

Definition logged (t : list Event) : list string :=
  flat_map (fun ev => match ev with EvSafeLog m => [m] | _ => [] end) t.

Definition resolutions (t : list Event) : list string :=
  flat_map (fun ev => match ev with EvGetAuthenticated k => [k] | _ => [] end) t.

(** ** What the spec calls things *)

(** The eight sub-actions the [switch] knows. *)
Definition recognized_actions : list string :=
  ["opened"; "reopened"; "closed"; "labeled"; "assigned"; "unassigned";
   "edited"; "milestoned"].

Definition is_recognized (action : option string) : bool :=
  existsb (is_str action) recognized_actions.

(** The mapping of the spec from event kind and sub-action to the hook
    and its arguments, for an event that carries the fields its hook
    reads. *)
Inductive Recognized (c : Context) (client : OctoKitIssue) : HookCall -> Prop :=
| RecCommented cm :
    ctx_eventName c = "issue_comment" ->
    payload_comment (ctx_payload c) = Some cm ->
    Recognized c client (OnCommented client (comment_body cm) (ctx_actor c))
| RecOpened :
    ctx_eventName c = "issues" ->
    payload_action (ctx_payload c) = Some "opened" ->
    Recognized c client (OnOpened client)
| RecReopened :
    ctx_eventName c = "issues" ->
    payload_action (ctx_payload c) = Some "reopened" ->
    Recognized c client (OnReopened client)
| RecClosed :
    ctx_eventName c = "issues" ->
    payload_action (ctx_payload c) = Some "closed" ->
    Recognized c client (OnClosed client)
| RecLabeled l :
    ctx_eventName c = "issues" ->
    payload_action (ctx_payload c) = Some "labeled" ->
    payload_label (ctx_payload c) = Some l ->
    Recognized c client (OnLabeled client (label_name l))
| RecAssigned u :
    ctx_eventName c = "issues" ->
    payload_action (ctx_payload c) = Some "assigned" ->
    payload_assignee (ctx_payload c) = Some u ->
    Recognized c client (OnAssigned client (user_login u))
| RecUnassigned u :
    ctx_eventName c = "issues" ->
    payload_action (ctx_payload c) = Some "unassigned" ->
    payload_assignee (ctx_payload c) = Some u ->
    Recognized c client (OnUnassigned client (user_login u))
| RecEdited :
    ctx_eventName c = "issues" ->
    payload_action (ctx_payload c) = Some "edited" ->
    Recognized c client (OnEdited client)
| RecMilestoned :
    ctx_eventName c = "issues" ->
    payload_action (ctx_payload c) = Some "milestoned" ->
    Recognized c client (OnMilestoned client).

(** The issue-scoped and the repository-scoped client of a run. *)
Definition issue_client (act : Action) (env : Env) (n : Z) : OctoKitIssue :=
  {| oki_token := token act;
     oki_params := ctx_repo (context env);
     oki_number := n;
     oki_readonly := negb (getInput env "readonly" =? "") |}.

Definition repo_client (act : Action) (env : Env) : OctoKit :=
  {| ok_token := token act;
     ok_params := ctx_repo (context env);
     ok_readonly := negb (getInput env "readonly" =? "") |}.

(** The tags [trackMetric] attaches for a resolved identity [user]. *)
Definition tagged (act : Action) (env : Env) (user : string) (t : Telemetry)
  : MetricTelemetry :=
  {| mt_name := tm_name t;
     mt_value := tm_value t;
     mt_properties :=
       {| prop_repo := repo_owner (ctx_repo (context env)) ++ "/"
                       ++ repo_name (ctx_repo (context env));
          prop_issue := num_to_string (ctx_issue_number (context env));
          prop_id := bot_id (bot act);
          prop_user := user |} |}.

(** The four samples of a run whose rate-limit usage is [u]. *)
Definition four_samples (env : Env) (u : Usage) : list Telemetry :=
  [ {| tm_name := "octokit_request_count"; tm_value := getNumRequests env |};
    {| tm_name := "usage_core"; tm_value := core u |};
    {| tm_name := "usage_graphql"; tm_value := graphql u |};
    {| tm_name := "usage_search"; tm_value := search u |} ].

(** The telemetry handle, when there is one, takes every sample. *)
Definition sink_accepts (env : Env) : Prop :=
  match aiHandle env with
  | Some h => forall m, sink_trackMetric h m = Returned tt
  | None => True
  end.

(** The telemetry handle, when there is one, takes the exception. *)
Definition exception_accepted (env : Env) (e : JsValue) : Prop :=
  match aiHandle env with
  | Some h => sink_trackException h e = Returned tt
  | None => True
  end.

(** The report [error] renders for [e] when the identity is [user]. *)
Definition report_text (act : Action) (user : string) (e : JsValue) : string :=
  render (details_message e) user (bot_id (bot act)).

(** The identity every event of a trace was tagged or rendered with. *)
Definition reads_identity_as (act : Action) (user : string) (ev : Event)
  : Prop :=
  match ev with
  | EvSinkTrackMetric m => prop_user (mt_properties m) = user
  | EvLogErrorToIssue r _ _ => exists e, r = report_text act user e
  | _ => True
  end.

(** The same run with another [context.issue.number], and with another
    [context.payload.issue]. *)
Definition with_ctx_issue_number (env : Env) (n : option Z) : Env :=
  let c := context env in
  {| context := {| ctx_eventName := ctx_eventName c;
                   ctx_payload := ctx_payload c;
                   ctx_repo := ctx_repo c;
                   ctx_actor := ctx_actor c;
                   ctx_issue_number := n |};
     errorLoggingIssue := errorLoggingIssue env;
     inputs := inputs env;
     aiHandle := aiHandle env;
     getAuthenticated := getAuthenticated env;
     logErrorToIssue := logErrorToIssue env;
     getNumRequests := getNumRequests env;
     getRateLimit := getRateLimit env;
     uuid := uuid env;
     captureStack := captureStack env |}.

Definition with_payload_issue (env : Env) (i : option PayloadIssue) : Env :=
  let c := context env in
  let p := ctx_payload c in
  {| context := {| ctx_eventName := ctx_eventName c;
                   ctx_payload :=
                     {| payload_action := payload_action p;
                        payload_issue := i;
                        payload_comment := payload_comment p;
                        payload_label := payload_label p;
                        payload_assignee := payload_assignee p |};
                   ctx_repo := ctx_repo c;
                   ctx_actor := ctx_actor c;
                   ctx_issue_number := ctx_issue_number c |};
     errorLoggingIssue := errorLoggingIssue env;
     inputs := inputs env;
     aiHandle := aiHandle env;
     getAuthenticated := getAuthenticated env;
     logErrorToIssue := logErrorToIssue env;
     getNumRequests := getNumRequests env;
     getRateLimit := getRateLimit env;
     uuid := uuid env;
     captureStack := captureStack env |}.

(** ** Sample runs *)

Definition quiet_bot : Bot :=
  {| bot_id := "sample-bot";
     onTriggered := fun _ => Fulfilled tt;
     onEdited := fun _ => Fulfilled tt;
     onLabeled := fun _ _ => Fulfilled tt;
     onAssigned := fun _ _ => Fulfilled tt;
     onUnassigned := fun _ _ => Fulfilled tt;
     onOpened := fun _ => Fulfilled tt;
     onReopened := fun _ => Fulfilled tt;
     onClosed := fun _ => Fulfilled tt;
     onMilestoned := fun _ => Fulfilled tt;
     onCommented := fun _ _ _ => Fulfilled tt |}.

Definition sample_repo : Repo := {| repo_owner := "o"; repo_name := "r" |}.

(** An [issues] event on issue [n] of [o/r] with sub-action [action]. *)
Definition issues_event (action : string) (n : Z) (label : option string)
  : Context :=
  {| ctx_eventName := "issues";
     ctx_payload :=
       {| payload_action := Some action;
          payload_issue := Some {| pi_number := n |};
          payload_comment := None;
          payload_label := option_map Build_PayloadLabel label;
          payload_assignee := None |};
     ctx_repo := sample_repo;
     ctx_actor := "alice";
     ctx_issue_number := Some n |}.

(** A scheduled run: no issue anywhere in the event. *)
Definition schedule_event : Context :=
  {| ctx_eventName := "schedule";
     ctx_payload :=
       {| payload_action := None;
          payload_issue := None;
          payload_comment := None;
          payload_label := None;
          payload_assignee := None |};
     ctx_repo := sample_repo;
     ctx_actor := "alice";
     ctx_issue_number := None |}.

(** An [issues] event whose payload has no [issue] object while
    [context.issue.number] is [n]. *)
Definition bare_issues_event (action : string) (n : Z) : Context :=
  {| ctx_eventName := "issues";
     ctx_payload :=
       {| payload_action := Some action;
          payload_issue := None;
          payload_comment := None;
          payload_label := None;
          payload_assignee := None |};
     ctx_repo := sample_repo;
     ctx_actor := "alice";
     ctx_issue_number := Some n |}.

Definition accepting_sink : TelemetryClient :=
  {| sink_trackMetric := fun _ => Returned tt;
     sink_trackException := fun _ => Returned tt |}.

Definition sink_down : JsValue :=
  JsObj (Some "telemetry unavailable") None "Error: telemetry unavailable".

Definition failing_sink : TelemetryClient :=
  {| sink_trackMetric := fun _ => Threw sink_down;
     sink_trackException := fun _ => Threw sink_down |}.

Definition network_down : JsValue :=
  JsObj (Some "network down") (Some "Error: network down at fetch")
        "Error: network down".

Definition sample_usage : Usage :=
  {| core := (1 # 4)%Q; graphql := (0 # 1)%Q; search := (1 # 2)%Q |}.

Definition sample_env (c : Context) (eli : option ErrorLoggingIssue)
  (h : option TelemetryClient) (auth : Promise AuthResponse)
  (deliver : Promise unit) (limit : Promise Usage) : Env :=
  {| context := c;
     errorLoggingIssue := eli;
     inputs := fun name => if name =? "token" then "secret" else "";
     aiHandle := h;
     getAuthenticated := fun _ => auth;
     logErrorToIssue := fun _ _ _ => deliver;
     getNumRequests := (3 # 1)%Q;
     getRateLimit := fun _ => limit;
     uuid := "0000";
     captureStack := fun header => header ++ nl ++ "    at run" |}.

Definition octocat : Promise AuthResponse :=
  Fulfilled {| data_name := "octocat" |}.

Definition sample_eli (n : Z) : ErrorLoggingIssue :=
  {| eli_repo := "r"; eli_owner := "o"; eli_issue := n |}.

(** The instance [new_Action] builds in the sample runs. *)
Definition sample_action (b : Bot) (name : string) : Action :=
  {| bot := b; username := Fulfilled name; token := "secret" |}.

Definition octo_action : Action := sample_action quiet_bot "octocat".

(** The first scenario of the spec: [labeled] with label [bug] on issue
    42 of [o/r], no error logging issue configured. *)
Definition labeled_env : Env :=
  sample_env (issues_event "labeled" 42 (Some "bug")) None
    (Some accepting_sink) octocat (Fulfilled tt) (Fulfilled sample_usage).

(** The second scenario of the spec: [closed] on issue 7 of [o/r],
    which is the error logging issue. *)
Definition refused_env : Env :=
  sample_env (issues_event "closed" 7 None) (Some (sample_eli 7))
    (Some accepting_sink) octocat (Fulfilled tt) (Fulfilled sample_usage).

(** A sub-action the [switch] does not know, on issue 42 and on the
    error logging issue. *)
Definition deleted_env : Env :=
  sample_env (issues_event "deleted" 42 None) None
    (Some accepting_sink) octocat (Fulfilled tt) (Fulfilled sample_usage).

Definition refused_deleted_env : Env :=
  sample_env (issues_event "deleted" 7 None) (Some (sample_eli 7))
    (Some accepting_sink) octocat (Fulfilled tt) (Fulfilled sample_usage).

(** A scheduled run. *)
Definition schedule_env : Env :=
  sample_env schedule_event (Some (sample_eli 7))
    (Some accepting_sink) octocat (Fulfilled tt) (Fulfilled sample_usage).

(** The first scenario with a telemetry handle that throws, and without
    a handle but with a rate-limit request that is rejected. *)
Definition sink_failing_env : Env :=
  sample_env (issues_event "labeled" 42 (Some "bug")) None
    (Some failing_sink) octocat (Fulfilled tt) (Fulfilled sample_usage).

Definition limit_failing_env : Env :=
  sample_env (issues_event "labeled" 42 (Some "bug")) None
    None octocat (Fulfilled tt) (Rejected network_down).

(** The first scenario with an error-reporting channel that rejects. *)
Definition undelivered_env : Env :=
  sample_env (issues_event "labeled" 42 (Some "bug")) None
    (Some accepting_sink) octocat (Rejected network_down)
    (Fulfilled sample_usage).

(** The first scenario where the identity cannot be resolved. *)
Definition anonymous_env : Env :=
  sample_env (issues_event "labeled" 42 (Some "bug")) None
    (Some accepting_sink) (Rejected network_down) (Fulfilled tt)
    (Fulfilled sample_usage).

(** An [opened] event on the error logging issue whose payload has no
    [issue] object. *)
Definition bare_env : Env :=
  sample_env (bare_issues_event "opened" 7) (Some (sample_eli 7))
    (Some accepting_sink) octocat (Fulfilled tt) (Fulfilled sample_usage).

(** A bot that overrides no hook. *)
Definition lazy_action (env : Env) (name : string) : Action :=
  sample_action (default_bot env "lazy-bot") name.

(** The trace of the constructor in the sample runs. *)
Definition sample_start : list Event :=
  [EvConsoleLog "::stop-commands::0000"; EvGetAuthenticated "secret"].

(** A bot whose hooks reject without a reason ([Promise.reject()]). *)
Definition rejecting_bot : Bot :=
  {| bot_id := "rejecting-bot";
     onTriggered := fun _ => Rejected JsUndefined;
     onEdited := fun _ => Rejected JsUndefined;
     onLabeled := fun _ _ => Rejected JsUndefined;
     onAssigned := fun _ _ => Rejected JsUndefined;
     onUnassigned := fun _ _ => Rejected JsUndefined;
     onOpened := fun _ => Rejected JsUndefined;
     onReopened := fun _ => Rejected JsUndefined;
     onClosed := fun _ => Rejected JsUndefined;
     onMilestoned := fun _ => Rejected JsUndefined;
     onCommented := fun _ _ _ => Rejected JsUndefined |}.

(** [deleted] on issue 42 when the rate-limit request is rejected. *)
Definition deleted_limit_failing_env : Env :=
  sample_env (issues_event "deleted" 42 None) None
    (Some accepting_sink) octocat (Fulfilled tt) (Rejected network_down).

(** The error the routing throws in [deleted_env]. *)
Definition deleted_error : JsValue :=
  mkError deleted_env "Error" "Unexpected action: deleted".

(** ** The pieces of a trace *)

(** What one [trackMetric] call leaves in the trace when the handle
    takes the sample and the identity is [user]. *)
Definition metric_events (act : Action) (env : Env) (user : string)
  (t : Telemetry) : list Event :=
  EvTrackMetric t ::
  match aiHandle env with
  | Some _ => [EvSinkTrackMetric (tagged act env user t)]
  | None => []
  end.

(** What the [trackException] step of [error] leaves in the trace. *)
Definition exception_events (env : Env) (e : JsValue) : list Event :=
  match aiHandle env with
  | Some _ => [EvTrackException e]
  | None => []
  end.

(** What the [catch] block of [run] leaves in the trace. *)
Definition caught_trace (act : Action) (env : Env) : list Event :=
  match result_of (route act env) with
  | Threw e => trace_of (on_caught act env e)
  | Returned _ => []
  end.

(** A caught value on which [message] can be read. *)
Definition readable (e : JsValue) : Prop :=
  match e with JsObj _ _ _ => True | _ => False end.

(** An event that neither calls a hook nor resolves the identity. *)
Definition aftermath (ev : Event) : Prop :=
  match ev with
  | EvHook _ | EvGetAuthenticated _ | EvConsoleLog _ => False
  | _ => True
  end.

(** An event that is not part of the metrics phase. *)
Definition before_metrics (ev : Event) : Prop :=
  match ev with
  | EvTrackMetric _ | EvSinkTrackMetric _ | EvGetRateLimit _ => False
  | _ => True
  end.

(** The name the [username] promise of an instance built in [env]
    resolves to. *)
Definition identity_of (env : Env) (act : Action) : string :=
  match getAuthenticated env (token act) with
  | Fulfilled v => data_name v
  | Rejected _ => "unknown"
  end.

(** ** More readings of a trace *)

Definition exceptions (t : list Event) : list JsValue :=
  flat_map (fun ev => match ev with EvTrackException e => [e] | _ => [] end) t.

Definition rate_limit_requests (t : list Event) : list string :=
  flat_map (fun ev => match ev with EvGetRateLimit k => [k] | _ => [] end) t.

(** The token, the repository and the read-only flag of the client a
    hook is called with. *)
Definition hook_token (h : HookCall) : string :=
  match h with
  | OnTriggered o => ok_token o
  | OnEdited i | OnLabeled i _ | OnAssigned i _ | OnUnassigned i _
  | OnOpened i | OnReopened i | OnClosed i | OnMilestoned i
  | OnCommented i _ _ => oki_token i
  end.

Definition hook_params (h : HookCall) : Repo :=
  match h with
  | OnTriggered o => ok_params o
  | OnEdited i | OnLabeled i _ | OnAssigned i _ | OnUnassigned i _
  | OnOpened i | OnReopened i | OnClosed i | OnMilestoned i
  | OnCommented i _ _ => oki_params i
  end.

Definition hook_readonly (h : HookCall) : bool :=
  match h with
  | OnTriggered o => ok_readonly o
  | OnEdited i | OnLabeled i _ | OnAssigned i _ | OnUnassigned i _
  | OnOpened i | OnReopened i | OnClosed i | OnMilestoned i
  | OnCommented i _ _ => oki_readonly i
  end.

(** The issue number of the client of an issue hook. *)
Definition hook_number (h : HookCall) : option Z :=
  match h with
  | OnTriggered _ => None
  | OnEdited i | OnLabeled i _ | OnAssigned i _ | OnUnassigned i _
  | OnOpened i | OnReopened i | OnClosed i | OnMilestoned i
  | OnCommented i _ _ => Some (oki_number i)
  end.

(** The client of a hook call is built from the token, the repository,
    the [readonly] input and the issue number of this run. *)
Definition client_of_run (act : Action) (env : Env) (h : HookCall) : Prop :=
  hook_token h = token act
  /\ hook_params h = ctx_repo (context env)
  /\ hook_readonly h = negb (getInput env "readonly" =? "")
  /\ (hook_number h = None \/ hook_number h = ctx_issue_number (context env)).

(** The [properties] object of the samples of a run. *)
Definition run_tags (act : Action) (env : Env) : MetricProperties :=
  {| prop_repo := repo_owner (ctx_repo (context env)) ++ "/"
                  ++ repo_name (ctx_repo (context env));
     prop_issue := num_to_string (ctx_issue_number (context env));
     prop_id := bot_id (bot act);
     prop_user := identity_of env act |}.

(** An event that is not a sample, or a sample with the tags [p]. *)
Definition carries_tags (p : MetricProperties) (ev : Event) : Prop :=
  match ev with
  | EvSinkTrackMetric m => mt_properties m = p
  | _ => True
  end.

(** An event that signals no failure: no report, no tracked exception,
    no failure marker, no log line. *)
Definition silent (ev : Event) : Prop :=
  match ev with
  | EvLogErrorToIssue _ _ _ | EvTrackException _ | EvSetFailed _
  | EvSafeLog _ => False
  | _ => True
  end.

(** An event that is no call of the telemetry handle. *)
Definition no_telemetry (ev : Event) : Prop :=
  match ev with
  | EvSinkTrackMetric _ | EvTrackException _ => False
  | _ => True
  end.

(** An event whose hook needs a field the payload does not have; the
    string is the property the hook's argument is read from. *)
Inductive Truncated (c : Context) : string -> Prop :=
| TruncComment :
    ctx_eventName c = "issue_comment" ->
    payload_comment (ctx_payload c) = None ->
    Truncated c "body"
| TruncLabel :
    ctx_eventName c = "issues" ->
    payload_action (ctx_payload c) = Some "labeled" ->
    payload_label (ctx_payload c) = None ->
    Truncated c "name"
| TruncAssigned :
    ctx_eventName c = "issues" ->
    payload_action (ctx_payload c) = Some "assigned" ->
    payload_assignee (ctx_payload c) = None ->
    Truncated c "login"
| TruncUnassigned :
    ctx_eventName c = "issues" ->
    payload_action (ctx_payload c) = Some "unassigned" ->
    payload_assignee (ctx_payload c) = None ->
    Truncated c "login".

(** The same run with another [context.payload.action], and with other
    inputs. *)
Definition with_payload_action (env : Env) (a : option string) : Env :=
  let c := context env in
  let p := ctx_payload c in
  {| context := {| ctx_eventName := ctx_eventName c;
                   ctx_payload :=
                     {| payload_action := a;
                        payload_issue := payload_issue p;
                        payload_comment := payload_comment p;
                        payload_label := payload_label p;
                        payload_assignee := payload_assignee p |};
                   ctx_repo := ctx_repo c;
                   ctx_actor := ctx_actor c;
                   ctx_issue_number := ctx_issue_number c |};
     errorLoggingIssue := errorLoggingIssue env;
     inputs := inputs env;
     aiHandle := aiHandle env;
     getAuthenticated := getAuthenticated env;
     logErrorToIssue := logErrorToIssue env;
     getNumRequests := getNumRequests env;
     getRateLimit := getRateLimit env;
     uuid := uuid env;
     captureStack := captureStack env |}.

Definition with_inputs (env : Env) (f : string -> string) : Env :=
  {| context := context env;
     errorLoggingIssue := errorLoggingIssue env;
     inputs := f;
     aiHandle := aiHandle env;
     getAuthenticated := getAuthenticated env;
     logErrorToIssue := logErrorToIssue env;
     getNumRequests := getNumRequests env;
     getRateLimit := getRateLimit env;
     uuid := uuid env;
     captureStack := captureStack env |}.

(** ** More sample runs *)

(** A [pull_request] event on number 5, and an [issues] event whose
    [context.issue.number] is 0. *)
Definition pull_request_event : Context :=
  {| ctx_eventName := "pull_request";
     ctx_payload :=
       {| payload_action := Some "opened";
          payload_issue := None;
          payload_comment := None;
          payload_label := None;
          payload_assignee := None |};
     ctx_repo := sample_repo;
     ctx_actor := "alice";
     ctx_issue_number := Some 5%Z |}.

Definition pull_request_env : Env :=
  sample_env pull_request_event None (Some accepting_sink) octocat
    (Fulfilled tt) (Fulfilled sample_usage).

Definition zero_env : Env :=
  sample_env (issues_event "labeled" 0 (Some "bug")) None
    (Some accepting_sink) octocat (Fulfilled tt) (Fulfilled sample_usage).

(** A comment on issue 42, with sub-action [created]. *)
Definition comment_event : Context :=
  {| ctx_eventName := "issue_comment";
     ctx_payload :=
       {| payload_action := Some "created";
          payload_issue := Some {| pi_number := 42 |};
          payload_comment := Some {| comment_body := "/assign" |};
          payload_label := None;
          payload_assignee := None |};
     ctx_repo := sample_repo;
     ctx_actor := "alice";
     ctx_issue_number := Some 42%Z |}.

Definition comment_env : Env :=
  sample_env comment_event None (Some accepting_sink) octocat
    (Fulfilled tt) (Fulfilled sample_usage).

(** [labeled] on issue 42 with no [label] object in the payload. *)
Definition truncated_env : Env :=
  sample_env (issues_event "labeled" 42 None) None
    (Some accepting_sink) octocat (Fulfilled tt) (Fulfilled sample_usage).

(** The first scenario without the [token] input, and with the input
    [readonly] set to the text [false]. *)
Definition tokenless_env : Env := with_inputs labeled_env (fun _ => "").

Definition readonly_false_env : Env :=
  with_inputs labeled_env
    (fun name => if name =? "token" then "secret"
                 else if name =? "readonly" then "false" else "").

(** The first scenario without a telemetry handle, and with a handle
    that takes the samples and throws on an exception record. *)
Definition sinkless_env : Env :=
  sample_env (issues_event "labeled" 42 (Some "bug")) None
    None octocat (Fulfilled tt) (Fulfilled sample_usage).

Definition exception_failing_sink : TelemetryClient :=
  {| sink_trackMetric := fun _ => Returned tt;
     sink_trackException := fun _ => Threw sink_down |}.

Definition exception_failing_env : Env :=
  sample_env (issues_event "labeled" 42 (Some "bug")) None
    (Some exception_failing_sink) octocat (Fulfilled tt)
    (Fulfilled sample_usage).

(** The first scenario with a rate-limit request that is rejected. *)
Definition limit_rejected_env : Env :=
  sample_env (issues_event "labeled" 42 (Some "bug")) None
    (Some accepting_sink) octocat (Fulfilled tt) (Rejected network_down).

(** A bot whose hooks throw a string ([throw 'boom']). *)
Definition boom : JsValue := JsObj None None "boom".

Definition string_throwing_bot : Bot :=
  {| bot_id := "string-bot";
     onTriggered := fun _ => Rejected boom;
     onEdited := fun _ => Rejected boom;
     onLabeled := fun _ _ => Rejected boom;
     onAssigned := fun _ _ => Rejected boom;
     onUnassigned := fun _ _ => Rejected boom;
     onOpened := fun _ => Rejected boom;
     onReopened := fun _ => Rejected boom;
     onClosed := fun _ => Rejected boom;
     onMilestoned := fun _ => Rejected boom;
     onCommented := fun _ _ _ => Rejected boom |}.

(** ** The monad at work *)

Lemma bind_returned {A B : Type} (c : M A) (k : A -> M B) t a :
  c = (t, Returned a) ->
  bind c k = ((t ++ trace_of (k a))%list, result_of (k a)).
Proof.
  intros ->. unfold bind, trace_of, result_of.
  destruct (k a); reflexivity.
Qed.

Lemma M_eta {A : Type} (c : M A) : c = (trace_of c, result_of c).
Proof. destruct c; reflexivity. Qed.

Lemma hooks_of_app t1 t2 :
  hooks_of (t1 ++ t2) = (hooks_of t1 ++ hooks_of t2)%list.
Proof. apply flat_map_app. Qed.

Lemma tracked_app t1 t2 :
  tracked (t1 ++ t2) = (tracked t1 ++ tracked t2)%list.
Proof. apply flat_map_app. Qed.

Lemma sink_samples_app t1 t2 :
  sink_samples (t1 ++ t2) = (sink_samples t1 ++ sink_samples t2)%list.
Proof. apply flat_map_app. Qed.

Lemma resolutions_app t1 t2 :
  resolutions (t1 ++ t2) = (resolutions t1 ++ resolutions t2)%list.
Proof. apply flat_map_app. Qed.

(** ** The constructor *)

Lemma new_Action_inv env b tr act :
  new_Action env b = (tr, Returned act) ->
  getRequiredInput env "token" = ret (token act)
  /\ bot act = b
  /\ username act
     = then2 (getAuthenticated env (token act)) data_name (fun _ => "unknown")
  /\ tr = [EvConsoleLog ("::stop-commands::" ++ uuid env);
           EvGetAuthenticated (token act)].
Proof.
  unfold new_Action, getRequiredInput.
  destruct (getInput env "token" =? ""); cbn; intros H.
  - discriminate H.
  - injection H as <- <-. cbn. repeat split.
Qed.

Lemma username_resolved env b tr act :
  new_Action env b = (tr, Returned act) ->
  username act = Fulfilled (identity_of env act).
Proof.
  intros H. destruct (new_Action_inv _ _ _ _ H) as (_ & _ & -> & _).
  unfold identity_of. destruct (getAuthenticated env (token act)); reflexivity.
Qed.

(** ** Hooks and routing *)

Lemma bind_ret_l {A B : Type} (a : A) (k : A -> M B) : bind (ret a) k = k a.
Proof. unfold bind, ret. destruct (k a); reflexivity. Qed.

Lemma bind_throw_l {A B : Type} (e : JsValue) (k : A -> M B) :
  bind (throw e) k = throw e.
Proof. reflexivity. Qed.

Lemma call_hook_trace act h : trace_of (call_hook act h) = [EvHook h].
Proof.
  unfold call_hook, emit, bind, trace_of.
  match goal with |- context [await ?p] => destruct p end; reflexivity.
Qed.

(** [route] throws before any hook, returns without any hook, or is the
    call of one hook. *)
Ltac route_case :=
  rewrite ?bind_ret_l, ?bind_throw_l;
  solve [ left; eexists; reflexivity
        | right; left; reflexivity
        | right; right; eexists; reflexivity ].

Lemma route_shape act env :
  (exists e, route act env = throw e)
  \/ route act env = ret tt
  \/ (exists h, route act env = call_hook act h).
Proof.
  unfold route, getRequiredInput.
  destruct (getInput env "token" =? ""); cbv beta iota; [route_case|].
  rewrite bind_ret_l.
  destruct (ctx_issue_number (context env)) as [n|]; [|route_case].
  destruct (truthy_num (Some n)); [|route_case].
  destruct (ctx_eventName (context env) =? "issue_comment").
  { unfold read_comment_body. destruct (payload_comment _); route_case. }
  destruct (ctx_eventName (context env) =? "issues"); [|route_case].
  unfold route_issues, read_label_name, read_assignee_login.
  repeat match goal with
         | |- context [if is_str ?a ?s then _ else _] =>
             destruct (is_str a s); cbv beta iota
         end;
    try (destruct (payload_label _)); try (destruct (payload_assignee _));
    route_case.
Qed.

Lemma route_trace act env :
  trace_of (route act env) = []
  \/ exists h, trace_of (route act env) = [EvHook h].
Proof.
  destruct (route_shape act env) as [[e ->] | [-> | [h ->]]].
  - left; reflexivity.
  - left; reflexivity.
  - right. exists h. apply call_hook_trace.
Qed.

(** ** Reporting a caught error *)

Lemma error_unreadable act env e :
  ~ readable e -> exists x, error act env e = throw x.
Proof.
  destruct e; cbn; intros H; try (eexists; reflexivity).
  exfalso; apply H; exact I.
Qed.

Lemma error_rejected act env e user x :
  readable e ->
  username act = Fulfilled user ->
  logErrorToIssue env (report_text act user e) true (token act) = Rejected x ->
  error act env e
  = ([EvLogErrorToIssue (report_text act user e) true (token act)], Threw x).
Proof.
  destruct e; cbn [readable]; try contradiction.
  intros _ Hu Hd. unfold error, read_message.
  rewrite bind_ret_l, Hu. cbn [await]. rewrite bind_ret_l.
  fold (report_text act user (JsObj message stack str)).
  rewrite Hd. reflexivity.
Qed.

Lemma error_delivered act env e user :
  readable e ->
  username act = Fulfilled user ->
  logErrorToIssue env (report_text act user e) true (token act) = Fulfilled tt ->
  exception_accepted env e ->
  error act env e
  = ((EvLogErrorToIssue (report_text act user e) true (token act)
      :: exception_events env e ++ [EvSetFailed (opt_message e)])%list,
     Returned tt).
Proof.
  destruct e; cbn [readable]; try contradiction.
  intros _ Hu Hd Hx. unfold error, read_message.
  rewrite bind_ret_l, Hu. cbn [await]. rewrite bind_ret_l.
  fold (report_text act user (JsObj message stack str)).
  rewrite Hd. unfold exception_accepted, exception_events in *.
  destruct (aiHandle env).
  - rewrite Hx. reflexivity.
  - reflexivity.
Qed.

(** Whatever the channel and the handle answer, the first thing [error]
    does with a readable value is to submit the rendered report. *)
Lemma error_submits act env e user :
  readable e ->
  username act = Fulfilled user ->
  exists rest,
    trace_of (error act env e)
    = EvLogErrorToIssue (report_text act user e) true (token act) :: rest.
Proof.
  destruct e; cbn [readable]; try contradiction.
  intros _ Hu. unfold error, read_message.
  rewrite bind_ret_l, Hu. cbn [await]. rewrite bind_ret_l.
  fold (report_text act user (JsObj message stack str)).
  destruct (logErrorToIssue env _ true (token act)) as [[]|x].
  - destruct (aiHandle env) as [h|].
    + destruct (sink_trackException h (JsObj message stack str)) as [[]|y];
        eexists; reflexivity.
    + eexists; reflexivity.
  - eexists; reflexivity.
Qed.

(** The [catch] block never throws. *)
Lemma on_caught_returns act env e :
  result_of (on_caught act env e) = Returned tt.
Proof.
  unfold on_caught, try_catch, safeLog, emit.
  destruct (error act env e) as [t [[]|x]]; reflexivity.
Qed.

Lemma on_caught_error_ok act env e t :
  error act env e = (t, Returned tt) -> on_caught act env e = (t, Returned tt).
Proof. unfold on_caught. intros ->. reflexivity. Qed.

Lemma on_caught_error_threw act env e t x :
  error act env e = (t, Threw x) ->
  on_caught act env e = ((t ++ [EvSafeLog (fallback_text e)])%list, Returned tt).
Proof. unfold on_caught. intros ->. reflexivity. Qed.

(** ** The shape of a run *)

Lemma guarded_trace act env :
  trace_of (try_catch (route act env) (on_caught act env))
  = (trace_of (route act env) ++ caught_trace act env)%list.
Proof.
  unfold caught_trace, try_catch, trace_of, result_of.
  destruct (route act env) as [t [[]|e]]; cbn.
  - now rewrite app_nil_r.
  - destruct (on_caught act env e); reflexivity.
Qed.

Lemma guarded_returns act env :
  result_of (try_catch (route act env) (on_caught act env)) = Returned tt.
Proof.
  unfold try_catch.
  destruct (route act env) as [t [[]|e]]; [reflexivity|].
  pose proof (on_caught_returns act env e) as H.
  destruct (on_caught act env e). exact H.
Qed.

(** A run that is not refused is the routing, the [catch] block when
    the routing threw, and the four metrics; its result is the result
    of the metrics. *)
Lemma run_passes act env :
  refuses env = false ->
  run act env
  = ((trace_of (route act env) ++ caught_trace act env
      ++ trace_of (emit_metrics act env))%list,
     result_of (emit_metrics act env)).
Proof.
  intros Hr. unfold run. rewrite Hr.
  erewrite bind_returned.
  2:{ rewrite (M_eta (try_catch _ _)), guarded_returns. reflexivity. }
  now rewrite guarded_trace, <- app_assoc.
Qed.

Lemma run_refused act env :
  refuses env = true -> run act env = ([EvSafeLog refusal], Returned tt).
Proof. intros Hr. unfold run. rewrite Hr. reflexivity. Qed.

(** ** Properties of every event of a trace *)

Section TraceInvariant.
Variable P : Event -> Prop.

Lemma all_ret {A : Type} (a : A) : Forall P (trace_of (ret a)).
Proof. constructor. Qed.

Lemma all_throw {A : Type} e : Forall P (trace_of (@throw A e)).
Proof. constructor. Qed.

Lemma all_lift {A : Type} (r : outcome A) : Forall P (trace_of (lift r)).
Proof. constructor. Qed.

Lemma all_await {A : Type} (p : Promise A) : Forall P (trace_of (await p)).
Proof. destruct p; constructor. Qed.

Lemma all_emit ev : P ev -> Forall P (trace_of (emit ev)).
Proof. intros H. repeat constructor. exact H. Qed.

Lemma all_bind {A B : Type} (c : M A) (k : A -> M B) :
  Forall P (trace_of c) ->
  (forall a, Forall P (trace_of (k a))) ->
  Forall P (trace_of (bind c k)).
Proof.
  intros Hc Hk. destruct c as [t [a|e]]; cbn in *; [|exact Hc].
  specialize (Hk a). unfold bind. destruct (k a) as [t' r]. cbn in *.
  apply Forall_app; split; assumption.
Qed.

Lemma all_try_catch {A : Type} (c : M A) (h : JsValue -> M A) :
  Forall P (trace_of c) ->
  (forall e, Forall P (trace_of (h e))) ->
  Forall P (trace_of (try_catch c h)).
Proof.
  intros Hc Hh. destruct c as [t [a|e]]; cbn in *; [exact Hc|].
  specialize (Hh e). destruct (h e) as [t' r]. cbn in *.
  apply Forall_app; split; assumption.
Qed.
End TraceInvariant.

Lemma aftermath_quiet t :
  Forall aftermath t -> hooks_of t = [] /\ resolutions t = [].
Proof.
  induction 1 as [|ev t Hev _ [IH1 IH2]]; [split; reflexivity|].
  destruct ev; cbn in *; try contradiction; auto.
Qed.

(** ** The metrics *)

Lemma trackMetric_no_sink act env t :
  aiHandle env = None ->
  trackMetric act env t = ([EvTrackMetric t], Returned tt).
Proof. intros H. unfold trackMetric. rewrite H. reflexivity. Qed.

Lemma trackMetric_sink act env t h user :
  aiHandle env = Some h ->
  username act = Fulfilled user ->
  trackMetric act env t
  = ([EvTrackMetric t; EvSinkTrackMetric (tagged act env user t)],
     sink_trackMetric h (tagged act env user t)).
Proof.
  intros H Hu. unfold trackMetric. rewrite H, Hu. reflexivity.
Qed.

Lemma trackMetric_trace act env t user :
  username act = Fulfilled user ->
  trace_of (trackMetric act env t) = metric_events act env user t.
Proof.
  intros Hu. unfold metric_events.
  destruct (aiHandle env) as [h|] eqn:Hh.
  - now rewrite (trackMetric_sink _ _ _ _ _ Hh Hu).
  - now rewrite (trackMetric_no_sink _ _ _ Hh).
Qed.

Lemma trackMetric_ok act env t user :
  sink_accepts env ->
  username act = Fulfilled user ->
  trackMetric act env t = (metric_events act env user t, Returned tt).
Proof.
  intros Hs Hu. unfold metric_events, sink_accepts in *.
  destruct (aiHandle env) as [h|] eqn:Hh.
  - now rewrite (trackMetric_sink _ _ _ _ _ Hh Hu), Hs.
  - now rewrite (trackMetric_no_sink _ _ _ Hh).
Qed.

Lemma emit_metrics_ok act env user u :
  sink_accepts env ->
  username act = Fulfilled user ->
  getRateLimit env (token act) = Fulfilled u ->
  emit_metrics act env
  = ((metric_events act env user
        {| tm_name := "octokit_request_count"; tm_value := getNumRequests env |}
      ++ EvGetRateLimit (token act)
      :: metric_events act env user
           {| tm_name := "usage_core"; tm_value := core u |}
      ++ metric_events act env user
           {| tm_name := "usage_graphql"; tm_value := graphql u |}
      ++ metric_events act env user
           {| tm_name := "usage_search"; tm_value := search u |})%list,
     Returned tt).
Proof.
  intros Hs Hu Hl. unfold emit_metrics.
  rewrite Hl. cbn [await].
  repeat (erewrite bind_returned;
          [|first [apply trackMetric_ok; eassumption | reflexivity]]).
  rewrite !(trackMetric_ok _ _ _ _ Hs Hu).
  cbn [trace_of result_of fst snd app]. reflexivity.
Qed.

(** The metrics phase opens with the request count. *)
Lemma emit_metrics_starts act env :
  exists rest,
    trace_of (emit_metrics act env)
    = EvTrackMetric {| tm_name := "octokit_request_count";
                       tm_value := getNumRequests env |} :: rest.
Proof.
  unfold emit_metrics, trackMetric at 1.
  unfold bind at 1. unfold bind at 1. cbn [emit].
  match goal with
  | |- context [match aiHandle env with Some _ => _ | None => _ end] =>
      destruct (match aiHandle env with Some h => _ | None => _ end)
        as [t [[]|e]]
  end.
  - cbn. match goal with |- context [let (_, _) := ?c in _] =>
             destruct c end. eexists; reflexivity.
  - eexists; reflexivity.
Qed.

(** ** No hook and no identity lookup after the routing *)

Ltac trace_steps_with known :=
  repeat first
    [ known
    | apply all_bind; [|intros]
    | apply all_try_catch; [|intros]
    | apply all_emit
    | apply all_await
    | apply all_lift
    | apply all_ret
    | apply all_throw ].

Ltac trace_steps :=
  repeat first
    [ apply all_bind; [|intros]
    | apply all_try_catch; [|intros]
    | apply all_emit
    | apply all_await
    | apply all_lift
    | apply all_ret
    | apply all_throw ].

Lemma trackMetric_aftermath act env t :
  Forall aftermath (trace_of (trackMetric act env t)).
Proof.
  unfold trackMetric. destruct (aiHandle env); trace_steps; exact I.
Qed.

Lemma emit_metrics_aftermath act env :
  Forall aftermath (trace_of (emit_metrics act env)).
Proof.
  unfold emit_metrics.
  trace_steps_with ltac:(apply trackMetric_aftermath); exact I.
Qed.

Lemma error_aftermath act env e :
  Forall aftermath (trace_of (error act env e)).
Proof.
  unfold error, read_message.
  destruct e; destruct (aiHandle env); trace_steps; exact I.
Qed.

Lemma caught_trace_aftermath act env :
  Forall aftermath (caught_trace act env).
Proof.
  unfold caught_trace. destruct (result_of (route act env)); [constructor|].
  unfold on_caught, safeLog.
  trace_steps_with ltac:(apply error_aftermath); exact I.
Qed.

(** The hooks a run calls are the hooks its routing calls. *)
Lemma run_hooks act env :
  refuses env = false ->
  hooks_of (trace_of (run act env)) = hooks_of (trace_of (route act env)).
Proof.
  intros Hr. rewrite (run_passes _ _ Hr). cbn [trace_of fst].
  rewrite !hooks_of_app.
  rewrite (proj1 (aftermath_quiet _ (caught_trace_aftermath act env))).
  rewrite (proj1 (aftermath_quiet _ (emit_metrics_aftermath act env))).
  now rewrite !app_nil_r.
Qed.

(** A run never looks the identity up. *)
Lemma run_resolutions act env : resolutions (trace_of (run act env)) = [].
Proof.
  destruct (refuses env) eqn:Hr.
  - now rewrite (run_refused _ _ Hr).
  - rewrite (run_passes _ _ Hr). cbn [trace_of fst].
    rewrite !resolutions_app.
    rewrite (proj2 (aftermath_quiet _ (caught_trace_aftermath act env))).
    rewrite (proj2 (aftermath_quiet _ (emit_metrics_aftermath act env))).
    destruct (route_trace act env) as [H | [h H]]; rewrite H; reflexivity.
Qed.

(** ** The identity every report and every sample carries *)

Lemma trackMetric_identity act env t user :
  username act = Fulfilled user ->
  Forall (reads_identity_as act user) (trace_of (trackMetric act env t)).
Proof.
  intros Hu. rewrite (trackMetric_trace _ _ _ _ Hu). unfold metric_events.
  destruct (aiHandle env); repeat constructor.
Qed.

Lemma emit_metrics_identity act env user :
  username act = Fulfilled user ->
  Forall (reads_identity_as act user) (trace_of (emit_metrics act env)).
Proof.
  intros Hu. unfold emit_metrics.
  trace_steps_with ltac:(apply trackMetric_identity; exact Hu); exact I.
Qed.

Lemma error_identity act env e user :
  username act = Fulfilled user ->
  Forall (reads_identity_as act user) (trace_of (error act env e)).
Proof.
  intros Hu. unfold error. rewrite Hu.
  destruct e; cbn [read_message];
    [rewrite bind_throw_l; apply all_throw ..|].
  rewrite bind_ret_l. cbn [await]. rewrite bind_ret_l.
  destruct (aiHandle env); trace_steps; try exact I;
    eexists; unfold report_text; reflexivity.
Qed.

Lemma caught_trace_identity act env user :
  username act = Fulfilled user ->
  Forall (reads_identity_as act user) (caught_trace act env).
Proof.
  intros Hu. unfold caught_trace.
  destruct (result_of (route act env)); [constructor|].
  unfold on_caught, safeLog.
  trace_steps_with ltac:(apply error_identity; exact Hu); exact I.
Qed.

Lemma run_identity act env user :
  username act = Fulfilled user ->
  Forall (reads_identity_as act user) (trace_of (run act env)).
Proof.
  intros Hu. destruct (refuses env) eqn:Hr.
  - rewrite (run_refused _ _ Hr). repeat constructor.
  - rewrite (run_passes _ _ Hr). cbn [trace_of fst].
    repeat (apply Forall_app; split).
    + destruct (route_trace act env) as [H | [h H]];
        rewrite H; repeat constructor.
    + now apply caught_trace_identity.
    + now apply emit_metrics_identity.
Qed.

(** ** Which hook the routing calls *)

Lemma route_no_issue act env :
  getRequiredInput env "token" = ret (token act) ->
  truthy_num (ctx_issue_number (context env)) = false ->
  route act env = call_hook act (OnTriggered (repo_client act env)).
Proof.
  intros Ht Hn. unfold route. rewrite Ht, bind_ret_l.
  destruct (ctx_issue_number (context env)); [rewrite Hn|]; reflexivity.
Qed.

Lemma route_recognized act env n h :
  getRequiredInput env "token" = ret (token act) ->
  ctx_issue_number (context env) = Some n ->
  n <> 0%Z ->
  Recognized (context env) (issue_client act env n) h ->
  route act env = call_hook act h.
Proof.
  intros Ht Hn Hz Hrec. unfold route. rewrite Ht, bind_ret_l, Hn.
  assert (Htr : truthy_num (Some n) = true).
  { cbn. apply negb_true_iff, Z.eqb_neq, Hz. }
  rewrite Htr. fold (issue_client act env n).
  destruct Hrec as
    [cm He Hc | He Ha | He Ha | He Ha | l He Ha Hl | u He Ha Hu
     | u He Ha Hu | He Ha | He Ha];
    rewrite He; cbn [String.eqb Ascii.eqb Bool.eqb andb];
    unfold read_comment_body, route_issues, read_label_name,
      read_assignee_login;
    try rewrite Ha; try rewrite Hc; try rewrite Hl; try rewrite Hu;
    cbn [is_str String.eqb Ascii.eqb Bool.eqb andb];
    rewrite ?bind_ret_l; reflexivity.
Qed.

Lemma is_recognized_false action :
  is_recognized action = false ->
  is_str action "opened" = false /\ is_str action "reopened" = false
  /\ is_str action "closed" = false /\ is_str action "labeled" = false
  /\ is_str action "assigned" = false /\ is_str action "unassigned" = false
  /\ is_str action "edited" = false /\ is_str action "milestoned" = false.
Proof.
  unfold is_recognized, recognized_actions. cbn [existsb].
  rewrite !orb_false_iff. tauto.
Qed.

Lemma route_unrecognized act env n :
  getRequiredInput env "token" = ret (token act) ->
  ctx_issue_number (context env) = Some n ->
  n <> 0%Z ->
  ctx_eventName (context env) = "issues" ->
  is_recognized (payload_action (ctx_payload (context env))) = false ->
  route act env
  = throw (mkError env "Error"
             ("Unexpected action: "
              ++ interp (payload_action (ctx_payload (context env))))).
Proof.
  intros Ht Hn Hz He Hu. unfold route. rewrite Ht, bind_ret_l, Hn.
  assert (Htr : truthy_num (Some n) = true).
  { cbn. apply negb_true_iff, Z.eqb_neq, Hz. }
  rewrite Htr, He. cbn [String.eqb Ascii.eqb Bool.eqb andb].
  unfold route_issues.
  destruct (is_recognized_false _ Hu) as (-> & -> & -> & -> & -> & -> & -> & ->).
  reflexivity.
Qed.

(** An event without an issue object in its payload is never refused. *)
Lemma refuses_needs_payload_issue env :
  payload_issue (ctx_payload (context env)) = None -> refuses env = false.
Proof.
  intros H. unfold refuses. rewrite H.
  destruct (errorLoggingIssue env); [|reflexivity].
  now rewrite andb_false_r.
Qed.

(** ** Self-protection *)

(** C2. When the owner and the name of the repository and the issue
    number of the payload equal the configured error logging issue,
    [run] logs the refusal once and returns: no hook is called, no
    report is sent, [trackMetric] is not called and the telemetry
    handle receives no sample. *)
Theorem C2_refusal_short_circuits act env eli i :
  errorLoggingIssue env = Some eli ->
  repo_owner (ctx_repo (context env)) = eli_owner eli ->
  repo_name (ctx_repo (context env)) = eli_repo eli ->
  payload_issue (ctx_payload (context env)) = Some i ->
  pi_number i = eli_issue eli ->
  run act env = ([EvSafeLog refusal], Returned tt)
  /\ logged (trace_of (run act env)) = [refusal]
  /\ hooks_of (trace_of (run act env)) = []
  /\ reports (trace_of (run act env)) = []
  /\ failures (trace_of (run act env)) = []
  /\ tracked (trace_of (run act env)) = []
  /\ sink_samples (trace_of (run act env)) = [].
Proof.
  intros He Ho Hn Hi Hnum.
  assert (Hr : refuses env = true).
  { unfold refuses. rewrite He, Hi, Ho, Hn, Hnum.
    now rewrite !String.eqb_refl, Z.eqb_refl. }
  rewrite (run_refused _ _ Hr). repeat split.
Qed.

Lemma C2_refusal_witness :
  run octo_action refused_env = ([EvSafeLog refusal], Returned tt)
  /\ logged (trace_of (run octo_action refused_env)) = [refusal]
  /\ hooks_of (trace_of (run octo_action refused_env)) = []
  /\ reports (trace_of (run octo_action refused_env)) = []
  /\ failures (trace_of (run octo_action refused_env)) = []
  /\ tracked (trace_of (run octo_action refused_env)) = []
  /\ sink_samples (trace_of (run octo_action refused_env)) = [].
Proof.
  apply (C2_refusal_short_circuits octo_action refused_env (sample_eli 7)
           {| pi_number := 7 |}); reflexivity.
Defined.

(** ** Routing *)

(** C8. For an event without an issue number (none in the payload, none
    in the context), [run] builds the repository-scoped client and calls
    [onTriggered] with it; this is the only hook of the run, so none of
    the nine issue hooks is called. *)
Theorem C8_no_issue_triggers env b tr act :
  new_Action env b = (tr, Returned act) ->
  ctx_issue_number (context env) = None ->
  payload_issue (ctx_payload (context env)) = None ->
  hooks_of (trace_of (run act env)) = [OnTriggered (repo_client act env)].
Proof.
  intros Hnew Hn Hp.
  destruct (new_Action_inv _ _ _ _ Hnew) as (Ht & _).
  rewrite (run_hooks _ _ (refuses_needs_payload_issue _ Hp)).
  rewrite (route_no_issue _ _ Ht) by (rewrite Hn; reflexivity).
  now rewrite call_hook_trace.
Qed.

Lemma C8_no_issue_witness :
  hooks_of (trace_of (run octo_action schedule_env))
  = [OnTriggered (repo_client octo_action schedule_env)].
Proof.
  apply (C8_no_issue_triggers schedule_env quiet_bot sample_start octo_action);
    reflexivity.
Defined.

(** C3, as the code has it.  For an event that is not refused, that has
    a non-zero issue number and a recognized kind and sub-action, the
    hooks [run] calls are exactly the one hook of the mapping, with the
    issue-scoped client and the arguments read from the event. *)
Theorem C3_one_matching_hook env b tr act n h :
  new_Action env b = (tr, Returned act) ->
  refuses env = false ->
  ctx_issue_number (context env) = Some n ->
  n <> 0%Z ->
  Recognized (context env) (issue_client act env n) h ->
  hooks_of (trace_of (run act env)) = [h].
Proof.
  intros Hnew Hr Hn Hz Hrec.
  destruct (new_Action_inv _ _ _ _ Hnew) as (Ht & _).
  rewrite (run_hooks _ _ Hr), (route_recognized _ _ _ _ Ht Hn Hz Hrec).
  now rewrite call_hook_trace.
Qed.

(** The first scenario of the spec: one call of [onLabeled] with the
    client of issue 42 and the label [bug]. *)
Lemma C3_one_matching_hook_witness :
  hooks_of (trace_of (run octo_action labeled_env))
  = [OnLabeled (issue_client octo_action labeled_env 42) "bug"].
Proof.
  apply (C3_one_matching_hook labeled_env quiet_bot sample_start
           octo_action 42).
  - reflexivity.
  - reflexivity.
  - reflexivity.
  - discriminate.
  - apply (RecLabeled _ _ {| label_name := "bug" |}); reflexivity.
Defined.

(** C3 fails as it is written: the event of the second scenario has an
    issue number and the recognized sub-action [closed], and [run] calls
    no hook at all. *)
Lemma C3_counterexample :
  ctx_issue_number (context refused_env) = Some 7%Z
  /\ Recognized (context refused_env) (issue_client octo_action refused_env 7)
       (OnClosed (issue_client octo_action refused_env 7))
  /\ hooks_of (trace_of (run octo_action refused_env)) = [].
Proof.
  split; [reflexivity|]. split; [|reflexivity].
  apply RecClosed; reflexivity.
Qed.

(** C7, as the code has it.  For an [issues] event that is not refused,
    with a non-zero issue number and a sub-action that is none of the
    eight, the routing throws [Error('Unexpected action: ...')] before
    any hook; the [catch] block takes it and submits the rendered
    report to the error-reporting channel first thing; the error does
    not leave the [catch] block, and the result of [run] is the result
    of the metrics, a normal return when telemetry and the rate-limit
    request do not fail. *)
Theorem C7_unexpected_action_reported env b tr act n u :
  new_Action env b = (tr, Returned act) ->
  refuses env = false ->
  ctx_issue_number (context env) = Some n ->
  n <> 0%Z ->
  ctx_eventName (context env) = "issues" ->
  is_recognized (payload_action (ctx_payload (context env))) = false ->
  let e := mkError env "Error"
             ("Unexpected action: "
              ++ interp (payload_action (ctx_payload (context env)))) in
  route act env = throw e
  /\ hooks_of (trace_of (run act env)) = []
  /\ (exists rest,
        trace_of (run act env)
        = EvLogErrorToIssue (report_text act (identity_of env act) e) true
            (token act) :: rest)
  /\ result_of (try_catch (route act env) (on_caught act env)) = Returned tt
  /\ result_of (run act env) = result_of (emit_metrics act env)
  /\ (sink_accepts env ->
      getRateLimit env (token act) = Fulfilled u ->
      result_of (run act env) = Returned tt).
Proof.
  intros Hnew Hr Hn Hz He Hun e.
  destruct (new_Action_inv _ _ _ _ Hnew) as (Ht & _).
  pose proof (username_resolved _ _ _ _ Hnew) as Hu.
  pose proof (route_unrecognized _ _ _ Ht Hn Hz He Hun) as Hroute.
  fold e in Hroute.
  split; [exact Hroute|].
  split; [rewrite (run_hooks _ _ Hr), Hroute; reflexivity|].
  split.
  { rewrite (run_passes _ _ Hr). unfold caught_trace. rewrite Hroute.
    cbn [trace_of result_of fst snd throw app].
    destruct (error_submits act env e _ I Hu) as [rest Hrest].
    unfold on_caught, try_catch.
    destruct (error act env e) as [t [[]|x]]; cbn in Hrest; subst t;
      eexists; reflexivity. }
  split; [apply guarded_returns|].
  split; [now rewrite (run_passes _ _ Hr)|].
  intros Hs Hl. rewrite (run_passes _ _ Hr). cbn [result_of snd].
  now rewrite (emit_metrics_ok _ _ _ _ Hs Hu Hl).
Qed.

(** [deleted] on issue 42: the report of the unexpected action is the
    first event of the run and the run returns. *)
Lemma C7_unexpected_action_witness :
  route octo_action deleted_env = throw deleted_error
  /\ hooks_of (trace_of (run octo_action deleted_env)) = []
  /\ (exists rest,
        trace_of (run octo_action deleted_env)
        = EvLogErrorToIssue (report_text octo_action "octocat" deleted_error)
            true "secret" :: rest)
  /\ result_of (try_catch (route octo_action deleted_env)
                  (on_caught octo_action deleted_env)) = Returned tt
  /\ result_of (run octo_action deleted_env) = Returned tt.
Proof.
  destruct (C7_unexpected_action_reported deleted_env quiet_bot sample_start
              octo_action 42 sample_usage)
    as (H1 & H2 & H3 & H4 & _ & H6);
    try solve [reflexivity | discriminate].
  split; [exact H1|]. split; [exact H2|]. split; [exact H3|].
  split; [exact H4|].
  apply H6; [intros m; reflexivity | reflexivity].
Defined.

(** C7 fails as it is written.  [deleted] on the error logging issue is
    an [issues] event with an issue number and a sub-action that is none
    of the eight, and the run is refused: nothing is thrown and no
    report is sent.  And [deleted] on issue 42 is reported, but when the
    rate-limit request is then rejected [run] throws. *)
Lemma C7_counterexample :
  (ctx_eventName (context refused_deleted_env) = "issues"
   /\ ctx_issue_number (context refused_deleted_env) = Some 7%Z
   /\ is_recognized
        (payload_action (ctx_payload (context refused_deleted_env))) = false
   /\ run octo_action refused_deleted_env = ([EvSafeLog refusal], Returned tt)
   /\ reports (trace_of (run octo_action refused_deleted_env)) = [])
  /\ (refuses deleted_limit_failing_env = false
      /\ ctx_eventName (context deleted_limit_failing_env) = "issues"
      /\ ctx_issue_number (context deleted_limit_failing_env) = Some 42%Z
      /\ is_recognized
           (payload_action (ctx_payload (context deleted_limit_failing_env)))
         = false
      /\ result_of (run octo_action deleted_limit_failing_env)
         = Threw network_down).
Proof. repeat split. Qed.

(** ** Metrics at the end of the run *)

Lemma before_metrics_quiet t :
  Forall before_metrics t -> tracked t = [] /\ sink_samples t = [].
Proof.
  induction 1 as [|ev t Hev _ [IH1 IH2]]; [split; reflexivity|].
  destruct ev; cbn in *; try contradiction; auto.
Qed.

Lemma route_before_metrics act env :
  Forall before_metrics (trace_of (route act env)).
Proof.
  destruct (route_trace act env) as [H | [h H]]; rewrite H;
    repeat constructor.
Qed.

Lemma error_before_metrics act env e :
  Forall before_metrics (trace_of (error act env e)).
Proof.
  unfold error, read_message.
  destruct e; destruct (aiHandle env); trace_steps; exact I.
Qed.

Lemma caught_trace_before_metrics act env :
  Forall before_metrics (caught_trace act env).
Proof.
  unfold caught_trace. destruct (result_of (route act env)); [constructor|].
  unfold on_caught, safeLog.
  trace_steps_with ltac:(apply error_before_metrics); exact I.
Qed.

(** The calls of [trackMetric] in a run are those of its last phase. *)
Lemma run_tracked act env :
  refuses env = false ->
  tracked (trace_of (run act env)) = tracked (trace_of (emit_metrics act env))
  /\ sink_samples (trace_of (run act env))
     = sink_samples (trace_of (emit_metrics act env)).
Proof.
  intros Hr. rewrite (run_passes _ _ Hr). cbn [trace_of fst].
  rewrite !tracked_app, !sink_samples_app.
  destruct (before_metrics_quiet _ (route_before_metrics act env)) as [-> ->].
  destruct (before_metrics_quiet _ (caught_trace_before_metrics act env))
    as [-> ->].
  split; reflexivity.
Qed.

(** C1, as the code has it.  For a run that is not refused, when the
    telemetry handle takes every sample and the rate-limit request is
    answered, [run] returns, and [trackMetric] has been called for the
    request count and the core, graphql and search usage, in this
    order, whatever the hook, the error-reporting channel and
    [trackException] did; with a handle, it has received the four
    samples with their tags. *)
Theorem C1_metrics_always_emitted env b tr act u :
  new_Action env b = (tr, Returned act) ->
  refuses env = false ->
  sink_accepts env ->
  getRateLimit env (token act) = Fulfilled u ->
  result_of (run act env) = Returned tt
  /\ tracked (trace_of (run act env)) = four_samples env u
  /\ sink_samples (trace_of (run act env))
     = match aiHandle env with
       | Some _ => map (tagged act env (identity_of env act)) (four_samples env u)
       | None => []
       end.
Proof.
  intros Hnew Hr Hs Hl.
  pose proof (username_resolved _ _ _ _ Hnew) as Hu.
  destruct (run_tracked act env Hr) as [-> ->].
  rewrite (run_passes _ _ Hr). cbn [result_of snd].
  rewrite (emit_metrics_ok _ _ _ _ Hs Hu Hl). cbn [trace_of result_of fst snd].
  unfold metric_events, four_samples.
  destruct (aiHandle env); repeat split.
Qed.

(** The first scenario of the spec: four samples tagged with issue
    ["42"]. *)
Lemma C1_metrics_witness :
  result_of (run octo_action labeled_env) = Returned tt
  /\ tracked (trace_of (run octo_action labeled_env))
     = four_samples labeled_env sample_usage
  /\ sink_samples (trace_of (run octo_action labeled_env))
     = map (tagged octo_action labeled_env "octocat")
         (four_samples labeled_env sample_usage).
Proof.
  apply (C1_metrics_always_emitted labeled_env quiet_bot sample_start
           octo_action sample_usage).
  - reflexivity.
  - reflexivity.
  - intros m. reflexivity.
  - reflexivity.
Defined.

(** C1 fails as it is written.  Both runs pass the self-protection
    check and their hook returns; in the first the telemetry handle
    throws on the first sample, in the second the rate-limit request is
    rejected.  [run] throws, after a single call of [trackMetric]. *)
Lemma C1_counterexample :
  (refuses sink_failing_env = false
   /\ result_of (run octo_action sink_failing_env) = Threw sink_down
   /\ length (tracked (trace_of (run octo_action sink_failing_env))) = 1)
  /\ (refuses limit_failing_env = false
      /\ result_of (run octo_action limit_failing_env) = Threw network_down
      /\ length (tracked (trace_of (run octo_action limit_failing_env))) = 1).
Proof. repeat split. Qed.

(** The first scenario of the spec, whole: one call of [onLabeled] for
    issue 42 with the label [bug], a normal return, and four samples
    whose [issue] tag is ["42"]. *)
Example scenario_labeled :
  hooks_of (trace_of (run octo_action labeled_env))
  = [OnLabeled {| oki_token := "secret"; oki_params := sample_repo;
                  oki_number := 42; oki_readonly := false |} "bug"]
  /\ result_of (run octo_action labeled_env) = Returned tt
  /\ map mt_name (sink_samples (trace_of (run octo_action labeled_env)))
     = ["octokit_request_count"; "usage_core"; "usage_graphql"; "usage_search"]
  /\ map (fun m => prop_issue (mt_properties m))
       (sink_samples (trace_of (run octo_action labeled_env)))
     = ["42"; "42"; "42"; "42"].
Proof. repeat split. Qed.

(** C9, as the code has it.  Without a telemetry handle [trackMetric]
    does nothing and returns.  With a handle it passes the tagged sample
    on, and its result is the result of that call: there is no guard,
    and it throws what the handle throws. *)
Theorem C9_trackMetric_forwards env b tr act t :
  new_Action env b = (tr, Returned act) ->
  match aiHandle env with
  | None => trackMetric act env t = ([EvTrackMetric t], Returned tt)
  | Some h =>
      trackMetric act env t
      = ([EvTrackMetric t;
          EvSinkTrackMetric (tagged act env (identity_of env act) t)],
         sink_trackMetric h (tagged act env (identity_of env act) t))
  end.
Proof.
  intros Hnew. pose proof (username_resolved _ _ _ _ Hnew) as Hu.
  destruct (aiHandle env) as [h|] eqn:Hh.
  - exact (trackMetric_sink _ _ _ _ _ Hh Hu).
  - exact (trackMetric_no_sink _ _ _ Hh).
Qed.

Lemma C9_trackMetric_witness :
  trackMetric octo_action labeled_env
    {| tm_name := "usage_core"; tm_value := core sample_usage |}
  = ([EvTrackMetric {| tm_name := "usage_core"; tm_value := core sample_usage |};
      EvSinkTrackMetric
        (tagged octo_action labeled_env "octocat"
           {| tm_name := "usage_core"; tm_value := core sample_usage |})],
     Returned tt).
Proof.
  apply (C9_trackMetric_forwards labeled_env quiet_bot sample_start octo_action
           {| tm_name := "usage_core"; tm_value := core sample_usage |}).
  reflexivity.
Defined.

(** C9 fails as it is written: with a handle that throws, [trackMetric]
    throws, and so does the run that called it, while the same run with
    a handle that takes the samples returns. *)
Lemma C9_counterexample :
  trackMetric octo_action sink_failing_env
    {| tm_name := "octokit_request_count";
       tm_value := getNumRequests sink_failing_env |}
  = ([EvTrackMetric {| tm_name := "octokit_request_count";
                       tm_value := getNumRequests sink_failing_env |};
      EvSinkTrackMetric
        (tagged octo_action sink_failing_env "octocat"
           {| tm_name := "octokit_request_count";
              tm_value := getNumRequests sink_failing_env |})],
     Threw sink_down)
  /\ result_of (run octo_action sink_failing_env) = Threw sink_down
  /\ result_of (run octo_action labeled_env) = Returned tt.
Proof. repeat split. Qed.

(** ** Failure capture *)

Lemma caught_trace_threw act env e :
  result_of (route act env) = Threw e ->
  caught_trace act env = trace_of (on_caught act env e).
Proof. intros H. unfold caught_trace. now rewrite H. Qed.

(** C4, as the code has it.  For every caught value on which [message]
    can be read, the [catch] block first submits the rendered report
    (message and stack, actor, id of the bot) to the error-reporting
    channel with the automated flag [true] and the token, and it never
    throws.  When the channel accepts the report and the telemetry
    handle, if any, accepts the exception, the failure marker is then set
    with the message of the error. *)
Theorem C4_report_then_failure_marker env b tr act e :
  new_Action env b = (tr, Returned act) ->
  refuses env = false ->
  result_of (route act env) = Threw e ->
  readable e ->
  (exists rest,
     caught_trace act env
     = EvLogErrorToIssue (report_text act (identity_of env act) e) true
         (token act) :: rest)
  /\ result_of (on_caught act env e) = Returned tt
  /\ trace_of (run act env)
     = (trace_of (route act env) ++ caught_trace act env
        ++ trace_of (emit_metrics act env))%list
  /\ (logErrorToIssue env (report_text act (identity_of env act) e) true
        (token act) = Fulfilled tt ->
      exception_accepted env e ->
      caught_trace act env
      = (EvLogErrorToIssue (report_text act (identity_of env act) e) true
           (token act)
         :: exception_events env e ++ [EvSetFailed (opt_message e)])%list).
Proof.
  intros Hnew Hr Hroute He.
  pose proof (username_resolved _ _ _ _ Hnew) as Hu.
  rewrite (caught_trace_threw _ _ _ Hroute).
  split.
  { destruct (error_submits act env e _ He Hu) as [rest Hrest].
    unfold on_caught, try_catch.
    destruct (error act env e) as [t [[]|x]]; cbn in Hrest; subst t;
      eexists; reflexivity. }
  split; [apply on_caught_returns|].
  split.
  { rewrite (run_passes _ _ Hr). cbn [trace_of fst].
    now rewrite (caught_trace_threw _ _ _ Hroute). }
  intros Hd Hx.
  now rewrite (on_caught_error_ok _ _ _ _ (error_delivered _ _ _ _ He Hu Hd Hx)).
Qed.

(** A bot without [onLabeled] in the first scenario: the report, the
    tracked exception and the failure marker. *)
Lemma C4_report_witness :
  caught_trace (lazy_action labeled_env "octocat") labeled_env
  = [EvLogErrorToIssue
       (report_text (lazy_action labeled_env "octocat") "octocat"
          (not_implemented labeled_env)) true "secret";
     EvTrackException (not_implemented labeled_env);
     EvSetFailed (Some "not implemented")].
Proof.
  destruct (C4_report_then_failure_marker labeled_env
              (default_bot labeled_env "lazy-bot") sample_start
              (lazy_action labeled_env "octocat")
              (not_implemented labeled_env))
    as (_ & _ & _ & H);
    [reflexivity | reflexivity | reflexivity | exact I |].
  apply H; reflexivity.
Defined.

(** C4 fails as it is written.  In the first run the hook throws, the
    channel rejects the report, and the run ends without the failure
    marker.  In the second the hook rejects with [undefined]: [error]
    fails on its first read, no report is submitted and no marker is
    set. *)
Lemma C4_counterexample :
  (result_of (route (lazy_action undelivered_env "octocat") undelivered_env)
   = Threw (not_implemented undelivered_env)
   /\ logErrorToIssue undelivered_env
        (report_text (lazy_action undelivered_env "octocat") "octocat"
           (not_implemented undelivered_env)) true "secret"
      = Rejected network_down
   /\ failures (trace_of (run (lazy_action undelivered_env "octocat")
                            undelivered_env)) = []
   /\ result_of (run (lazy_action undelivered_env "octocat") undelivered_env)
      = Returned tt)
  /\ (result_of (route (sample_action rejecting_bot "octocat") labeled_env)
      = Threw JsUndefined
      /\ reports (trace_of (run (sample_action rejecting_bot "octocat")
                              labeled_env)) = []
      /\ failures (trace_of (run (sample_action rejecting_bot "octocat")
                               labeled_env)) = []
      /\ logged (trace_of (run (sample_action rejecting_bot "octocat")
                             labeled_env)) = ["undefined"]).
Proof. repeat split. Qed.

Lemma fallback_text_stack e s :
  opt_stack e = Some s -> s <> "" -> fallback_text e = s.
Proof.
  intros H Hs. unfold fallback_text, js_or, truthy_str. rewrite H.
  apply String.eqb_neq in Hs. now rewrite Hs.
Qed.

Lemma js_or_falsy o d : truthy_str o = false -> js_or o d = d.
Proof. unfold js_or. destruct o; [intros ->|]; reflexivity. Qed.

(** C5.  When [error] fails for a caught value (as it does when the
    channel rejects the report), the [catch] block writes
    [e?.stack || e?.message || String(e)] to the log, nothing is thrown
    past it, and the run goes on with the metrics, whose first step is
    the [trackMetric] call for the request count. *)
Theorem C5_fallback_log act env e x :
  refuses env = false ->
  result_of (route act env) = Threw e ->
  result_of (error act env e) = Threw x ->
  caught_trace act env
  = (trace_of (error act env e) ++ [EvSafeLog (fallback_text e)])%list
  /\ result_of (on_caught act env e) = Returned tt
  /\ trace_of (run act env)
     = (trace_of (route act env) ++ trace_of (error act env e)
        ++ EvSafeLog (fallback_text e) :: trace_of (emit_metrics act env))%list
  /\ result_of (run act env) = result_of (emit_metrics act env)
  /\ (exists rest,
        trace_of (emit_metrics act env)
        = EvTrackMetric {| tm_name := "octokit_request_count";
                           tm_value := getNumRequests env |} :: rest)
  /\ (forall s, opt_stack e = Some s -> s <> "" -> fallback_text e = s)
  /\ (forall m, truthy_str (opt_stack e) = false ->
                opt_message e = Some m -> m <> "" -> fallback_text e = m)
  /\ (truthy_str (opt_stack e) = false ->
      truthy_str (opt_message e) = false ->
      fallback_text e = js_String e).
Proof.
  intros Hr Hroute Herr.
  assert (Hc : on_caught act env e
               = ((trace_of (error act env e) ++ [EvSafeLog (fallback_text e)])%list,
                  Returned tt)).
  { apply (on_caught_error_threw _ _ _ _ x).
    rewrite (M_eta (error act env e)), Herr. reflexivity. }
  rewrite (caught_trace_threw _ _ _ Hroute), (run_passes _ _ Hr).
  rewrite (caught_trace_threw _ _ _ Hroute), Hc.
  cbn [trace_of result_of fst snd].
  split; [reflexivity|]. split; [reflexivity|].
  split; [now rewrite <- !app_assoc|].
  split; [reflexivity|].
  split; [apply emit_metrics_starts|].
  split; [apply fallback_text_stack|].
  split.
  - intros m Hs Hm Hne. unfold fallback_text.
    rewrite (js_or_falsy _ _ Hs). unfold js_or, truthy_str. rewrite Hm.
    apply String.eqb_neq in Hne. now rewrite Hne.
  - intros Hs Hm. unfold fallback_text.
    now rewrite (js_or_falsy _ _ Hs), (js_or_falsy _ _ Hm).
Qed.

(** The channel rejects the report of a missing [onLabeled]: the stack
    of the error goes to the log and the metrics follow. *)
Lemma C5_fallback_witness :
  caught_trace (lazy_action undelivered_env "octocat") undelivered_env
  = [EvLogErrorToIssue
       (report_text (lazy_action undelivered_env "octocat") "octocat"
          (not_implemented undelivered_env)) true "secret";
     EvSafeLog ("Error: not implemented" ++ nl ++ "    at run")]
  /\ result_of (run (lazy_action undelivered_env "octocat") undelivered_env)
     = result_of (emit_metrics (lazy_action undelivered_env "octocat")
                    undelivered_env).
Proof.
  destruct (C5_fallback_log (lazy_action undelivered_env "octocat")
              undelivered_env (not_implemented undelivered_env) network_down)
    as (H1 & _ & _ & H4 & _);
    [reflexivity | reflexivity | |].
  - rewrite (error_rejected _ _ _ "octocat" network_down);
      [reflexivity | exact I | reflexivity | reflexivity].
  - split; [exact H1 | exact H4].
Defined.

(** For a caught [null] or [undefined], [error] fails on its first read
    and the log line is the name of the value. *)
Lemma on_caught_unreadable act env e :
  ~ readable e ->
  on_caught act env e = ([EvSafeLog (js_String e)], Returned tt).
Proof.
  intros H. destruct (error_unreadable act env e H) as [x Hx].
  rewrite (on_caught_error_threw _ _ _ [] x Hx).
  destruct e; try reflexivity. exfalso; apply H; exact I.
Qed.

Example fallback_text_message_only :
  fallback_text (JsObj (Some "boom") None "Error: boom") = "boom".
Proof. reflexivity. Qed.

Example fallback_text_empty_stack :
  fallback_text (JsObj (Some "boom") (Some "") "Error: boom") = "boom".
Proof. reflexivity. Qed.

Example fallback_text_primitive :
  fallback_text (JsObj None None "42") = "42".
Proof. reflexivity. Qed.

(** The report of a missing [onLabeled] in the first scenario. *)
Example report_text_not_implemented :
  report_text (lazy_action labeled_env "octocat") "octocat"
    (not_implemented labeled_env)
  = nl ++ "Message: not implemented" ++ nl
    ++ "Error: not implemented" ++ nl ++ "    at run" ++ nl ++ nl
    ++ "Actor: octocat" ++ nl ++ nl
    ++ "ID: lazy-bot" ++ nl.
Proof. reflexivity. Qed.

(** ** The acting identity *)

(** C6.  The [username] promise of an instance is always fulfilled; the
    identity is looked up once, by the constructor, and never by [run];
    every sample and every report of a run carries the one name the
    promise holds, and that name is ["unknown"] when the lookup was
    rejected. *)
Theorem C6_identity_never_throws env b tr act :
  new_Action env b = (tr, Returned act) ->
  (exists user, username act = Fulfilled user)
  /\ resolutions tr = [token act]
  /\ resolutions (trace_of (run act env)) = []
  /\ Forall (reads_identity_as act (identity_of env act)) (trace_of (run act env))
  /\ (forall x, getAuthenticated env (token act) = Rejected x ->
      username act = Fulfilled "unknown"
      /\ Forall (reads_identity_as act "unknown") (trace_of (run act env))).
Proof.
  intros Hnew.
  pose proof (username_resolved _ _ _ _ Hnew) as Hu.
  destruct (new_Action_inv _ _ _ _ Hnew) as (_ & _ & _ & Htr).
  split; [eauto|].
  split; [rewrite Htr; reflexivity|].
  split; [apply run_resolutions|].
  split; [apply run_identity, Hu|].
  intros x Hx.
  assert (Hid : identity_of env act = "unknown")
    by (unfold identity_of; now rewrite Hx).
  rewrite Hid in Hu. split; [exact Hu | apply run_identity, Hu].
Qed.

(** The lookup is rejected and the bot has no [onLabeled]: the report
    and the four samples of the run carry ["unknown"]. *)
Lemma C6_identity_witness :
  username (lazy_action anonymous_env "unknown") = Fulfilled "unknown"
  /\ Forall (reads_identity_as (lazy_action anonymous_env "unknown") "unknown")
       (trace_of (run (lazy_action anonymous_env "unknown") anonymous_env)).
Proof.
  destruct (C6_identity_never_throws anonymous_env
              (default_bot anonymous_env "lazy-bot") sample_start
              (lazy_action anonymous_env "unknown"))
    as (_ & _ & _ & _ & H); [reflexivity|].
  apply (H network_down). reflexivity.
Defined.

(** ** Two readings of the issue number *)

(** C10.  The test that opens [run] does not depend on
    [context.issue.number], the routing does not depend on
    [context.payload.issue], and a payload without an [issue] object is
    never refused.  So there is an event on the repository and the
    number of the error logging issue, with no [issue] object in its
    payload, that is not refused and for which a hook is called with
    the client of the error logging issue. *)
Theorem C10_guard_and_routing_disagree :
  (forall env n, refuses (with_ctx_issue_number env n) = refuses env)
  /\ (forall act env i, route act (with_payload_issue env i) = route act env)
  /\ (forall env, refuses (with_payload_issue env None) = false)
  /\ (exists env act eli,
        errorLoggingIssue env = Some eli
        /\ payload_issue (ctx_payload (context env)) = None
        /\ repo_owner (ctx_repo (context env)) = eli_owner eli
        /\ repo_name (ctx_repo (context env)) = eli_repo eli
        /\ ctx_issue_number (context env) = Some (eli_issue eli)
        /\ refuses env = false
        /\ hooks_of (trace_of (run act env))
           = [OnOpened (issue_client act env (eli_issue eli))]
        /\ oki_params (issue_client act env (eli_issue eli))
           = {| repo_owner := eli_owner eli; repo_name := eli_repo eli |}).
Proof.
  split; [reflexivity|].
  split; [reflexivity|].
  split; [intros env; now apply refuses_needs_payload_issue|].
  exists bare_env, octo_action, (sample_eli 7). repeat split.
Qed.

(** * Further properties of the dispatcher *)

(** ** The hooks of a run *)

Lemma call_hook_default act env id h :
  bot act = default_bot env id ->
  result_of (call_hook act h) = Threw (not_implemented env).
Proof.
  intros Hb. unfold call_hook. rewrite Hb. destruct h; reflexivity.
Qed.

Lemma run_hooks_refused act env :
  refuses env = true -> hooks_of (trace_of (run act env)) = [].
Proof. intros Hr. now rewrite (run_refused _ _ Hr). Qed.

(** The hooks of the abstract class.  When a bot that overrides no hook
    is routed to one, the routing throws [Error('not implemented')] and
    the [catch] block of [run] takes that error. *)
Theorem X_default_hooks_not_implemented env id act h :
  bot act = default_bot env id ->
  In h (hooks_of (trace_of (run act env))) ->
  result_of (route act env) = Threw (not_implemented env)
  /\ caught_trace act env = trace_of (on_caught act env (not_implemented env)).
Proof.
  intros Hb Hin.
  destruct (refuses env) eqn:Hr.
  { rewrite (run_hooks_refused _ _ Hr) in Hin. destruct Hin. }
  rewrite (run_hooks _ _ Hr) in Hin.
  assert (Hres : result_of (route act env) = Threw (not_implemented env)).
  { destruct (route_shape act env) as [[e He] | [He | [h' He]]];
      rewrite He in *; try (destruct Hin; fail).
    apply (call_hook_default _ _ id), Hb. }
  split; [exact Hres | now apply caught_trace_threw].
Qed.

Lemma X_default_hooks_witness :
  result_of (route (lazy_action labeled_env "octocat") labeled_env)
  = Threw (not_implemented labeled_env)
  /\ caught_trace (lazy_action labeled_env "octocat") labeled_env
     = trace_of (on_caught (lazy_action labeled_env "octocat") labeled_env
                   (not_implemented labeled_env)).
Proof.
  apply (X_default_hooks_not_implemented labeled_env "lazy-bot"
           (lazy_action labeled_env "octocat")
           (OnLabeled (issue_client (lazy_action labeled_env "octocat")
                         labeled_env 42) "bug")).
  - reflexivity.
  - left. reflexivity.
Defined.

(** A run calls at most one hook, whatever the event and the
    collaborators. *)
Theorem X_at_most_one_hook act env :
  length (hooks_of (trace_of (run act env))) <= 1.
Proof.
  destruct (refuses env) eqn:Hr.
  - rewrite (run_hooks_refused _ _ Hr). cbn. auto.
  - rewrite (run_hooks _ _ Hr).
    destruct (route_trace act env) as [H | [h H]]; rewrite H; cbn; auto.
Qed.

(** [route] with the client of its hook. *)
Lemma route_shape_client act env :
  getRequiredInput env "token" = ret (token act) ->
  (exists e, route act env = throw e)
  \/ route act env = ret tt
  \/ (exists h, route act env = call_hook act h /\ client_of_run act env h).
Proof.
  intros Ht. unfold route. rewrite Ht, bind_ret_l.
  assert (Hc : forall h, client_of_run act env h ->
               (exists e, call_hook act h = throw e)
               \/ call_hook act h = ret tt
               \/ (exists h', call_hook act h = call_hook act h'
                              /\ client_of_run act env h')).
  { intros h Hh. right; right. exists h. split; [reflexivity | exact Hh]. }
  destruct (ctx_issue_number (context env)) as [n|] eqn:Hn;
    [|apply Hc; unfold client_of_run; cbn; auto].
  destruct (truthy_num (Some n));
    [|apply Hc; unfold client_of_run; cbn; auto].
  destruct (ctx_eventName (context env) =? "issue_comment").
  { unfold read_comment_body. destruct (payload_comment _).
    - rewrite bind_ret_l. apply Hc. unfold client_of_run; cbn; auto.
    - left; eexists; reflexivity. }
  destruct (ctx_eventName (context env) =? "issues");
    [|right; left; reflexivity].
  unfold route_issues, read_label_name, read_assignee_login.
  repeat match goal with
         | |- context [if is_str ?a ?s then _ else _] =>
             destruct (is_str a s); cbv beta iota
         end;
    try (destruct (payload_label _)); try (destruct (payload_assignee _));
    rewrite ?bind_ret_l, ?bind_throw_l;
    first [ apply Hc; unfold client_of_run; cbn; auto
          | left; eexists; reflexivity ].
Qed.

(** Every hook a run calls gets a client built from the token of the
    instance, [context.repo], the issue number of the context when the
    client is issue-scoped, and a read-only flag that is set as soon as
    the [readonly] input is not empty. *)
Theorem X_hook_client_of_run env b tr act :
  new_Action env b = (tr, Returned act) ->
  Forall (client_of_run act env) (hooks_of (trace_of (run act env))).
Proof.
  intros Hnew. destruct (new_Action_inv _ _ _ _ Hnew) as (Ht & _).
  destruct (refuses env) eqn:Hr.
  { rewrite (run_hooks_refused _ _ Hr). constructor. }
  rewrite (run_hooks _ _ Hr).
  destruct (route_shape_client act env Ht) as [[e He] | [He | (h & He & Hh)]];
    rewrite He.
  - constructor.
  - constructor.
  - rewrite call_hook_trace. constructor; [exact Hh | constructor].
Qed.

(** With the input [readonly] set to the text [false], the client of
    the hook is read-only. *)
Lemma X_hook_client_witness :
  Forall (client_of_run octo_action readonly_false_env)
    (hooks_of (trace_of (run octo_action readonly_false_env)))
  /\ hooks_of (trace_of (run octo_action readonly_false_env))
     = [OnLabeled {| oki_token := "secret"; oki_params := sample_repo;
                     oki_number := 42; oki_readonly := true |} "bug"].
Proof.
  split; [|reflexivity].
  apply (X_hook_client_of_run readonly_false_env quiet_bot sample_start
           octo_action).
  reflexivity.
Defined.

(** ** Events outside the mapping *)

Lemma truthy_num_nonzero n : n <> 0%Z -> truthy_num (Some n) = true.
Proof. intros H. cbn. apply negb_true_iff, Z.eqb_neq, H. Qed.

(** An event with an issue number whose kind is neither [issue_comment]
    nor [issues] (a pull request, say) falls through the routing: no
    hook is called, nothing is thrown, and the run is its metrics phase
    alone. *)
Theorem X_other_kinds_fall_through env b tr act n :
  new_Action env b = (tr, Returned act) ->
  refuses env = false ->
  ctx_issue_number (context env) = Some n ->
  n <> 0%Z ->
  ctx_eventName (context env) <> "issue_comment" ->
  ctx_eventName (context env) <> "issues" ->
  route act env = ret tt
  /\ run act env = emit_metrics act env.
Proof.
  intros Hnew Hr Hn Hz Hc Hi.
  destruct (new_Action_inv _ _ _ _ Hnew) as (Ht & _).
  assert (Hroute : route act env = ret tt).
  { unfold route. rewrite Ht, bind_ret_l, Hn, (truthy_num_nonzero _ Hz).
    apply String.eqb_neq in Hc, Hi. now rewrite Hc, Hi. }
  split; [exact Hroute|].
  rewrite (run_passes _ _ Hr). unfold caught_trace. rewrite Hroute.
  cbn [trace_of result_of fst snd ret app]. symmetry. apply M_eta.
Qed.

Lemma X_other_kinds_witness :
  route octo_action pull_request_env = ret tt
  /\ run octo_action pull_request_env = emit_metrics octo_action pull_request_env.
Proof.
  apply (X_other_kinds_fall_through pull_request_env quiet_bot sample_start
           octo_action 5); solve [reflexivity | discriminate].
Defined.

(** An issue number of 0 counts as no issue number: whatever the kind
    of the event, the run calls [onTriggered] with the repository-scoped
    client. *)
Theorem X_zero_issue_number_triggers env b tr act :
  new_Action env b = (tr, Returned act) ->
  refuses env = false ->
  ctx_issue_number (context env) = Some 0%Z ->
  hooks_of (trace_of (run act env)) = [OnTriggered (repo_client act env)].
Proof.
  intros Hnew Hr Hn.
  destruct (new_Action_inv _ _ _ _ Hnew) as (Ht & _).
  rewrite (run_hooks _ _ Hr).
  rewrite (route_no_issue _ _ Ht) by (rewrite Hn; reflexivity).
  now rewrite call_hook_trace.
Qed.

Lemma X_zero_issue_number_witness :
  hooks_of (trace_of (run octo_action zero_env))
  = [OnTriggered (repo_client octo_action zero_env)].
Proof.
  apply (X_zero_issue_number_triggers zero_env quiet_bot sample_start
           octo_action); reflexivity.
Defined.

(** For a comment event the sub-action of the payload is not read: the
    run is the same for [created], [edited], [deleted] or none. *)
Theorem X_comment_ignores_action act env a :
  ctx_eventName (context env) = "issue_comment" ->
  run act (with_payload_action env a) = run act env.
Proof.
  destruct env as [c eli inp ai ga le nr rl uu cs].
  destruct c as [ev p r actor num]. cbn. intros ->. reflexivity.
Qed.

Lemma X_comment_ignores_action_witness :
  run octo_action (with_payload_action comment_env (Some "deleted"))
  = run octo_action comment_env
  /\ hooks_of (trace_of (run octo_action comment_env))
     = [OnCommented (issue_client octo_action comment_env 42) "/assign" "alice"].
Proof.
  split; [|reflexivity].
  apply (X_comment_ignores_action octo_action comment_env (Some "deleted")).
  reflexivity.
Defined.

(** What a run does with an error the routing throws before any hook:
    no hook is called and the report of the error is the first event. *)
Lemma run_reports_thrown env b tr act e :
  new_Action env b = (tr, Returned act) ->
  refuses env = false ->
  route act env = throw e ->
  readable e ->
  hooks_of (trace_of (run act env)) = []
  /\ exists rest,
       trace_of (run act env)
       = EvLogErrorToIssue (report_text act (identity_of env act) e) true
           (token act) :: rest.
Proof.
  intros Hnew Hr Hroute He.
  pose proof (username_resolved _ _ _ _ Hnew) as Hu.
  split; [rewrite (run_hooks _ _ Hr), Hroute; reflexivity|].
  rewrite (run_passes _ _ Hr). unfold caught_trace. rewrite Hroute.
  cbn [trace_of result_of fst snd throw app].
  destruct (error_submits act env e _ He Hu) as [rest Hrest].
  unfold on_caught, try_catch.
  destruct (error act env e) as [t [[]|x]]; cbn in Hrest; subst t;
    eexists; reflexivity.
Qed.

(** When the payload lacks the object the argument of the hook is read
    from ([comment], [label] or [assignee]), reading it throws a
    [TypeError] inside the [try] block: no hook is called and the error
    is reported like any other. *)
Theorem X_truncated_payload_reported env b tr act n prop :
  new_Action env b = (tr, Returned act) ->
  refuses env = false ->
  ctx_issue_number (context env) = Some n ->
  n <> 0%Z ->
  Truncated (context env) prop ->
  route act env = throw (nullish_read env prop "undefined")
  /\ hooks_of (trace_of (run act env)) = []
  /\ exists rest,
       trace_of (run act env)
       = EvLogErrorToIssue
           (report_text act (identity_of env act)
              (nullish_read env prop "undefined")) true (token act) :: rest.
Proof.
  intros Hnew Hr Hn Hz Htr.
  destruct (new_Action_inv _ _ _ _ Hnew) as (Ht & _).
  assert (Hroute : route act env = throw (nullish_read env prop "undefined")).
  { unfold route. rewrite Ht, bind_ret_l, Hn, (truthy_num_nonzero _ Hz).
    destruct Htr as [He Hc | He Ha Hl | He Ha Hu | He Ha Hu];
      rewrite He; cbn [String.eqb Ascii.eqb Bool.eqb andb];
      unfold read_comment_body, route_issues, read_label_name,
        read_assignee_login;
      try rewrite Ha; try rewrite Hc; try rewrite Hl; try rewrite Hu;
      cbn [is_str String.eqb Ascii.eqb Bool.eqb andb];
      reflexivity. }
  split; [exact Hroute|].
  apply (run_reports_thrown _ _ _ _ _ Hnew Hr Hroute). exact I.
Qed.

Lemma X_truncated_payload_witness :
  route octo_action truncated_env
  = throw (nullish_read truncated_env "name" "undefined")
  /\ hooks_of (trace_of (run octo_action truncated_env)) = []
  /\ exists rest,
       trace_of (run octo_action truncated_env)
       = EvLogErrorToIssue
           (report_text octo_action "octocat"
              (nullish_read truncated_env "name" "undefined")) true "secret"
         :: rest.
Proof.
  apply (X_truncated_payload_reported truncated_env quiet_bot sample_start
           octo_action 42 "name");
    try solve [reflexivity | discriminate].
  apply TruncLabel; reflexivity.
Defined.

(** ** The constructor *)

(** When reading the [token] input throws, the constructor throws the
    same error before it writes the [stop-commands] line and before it
    asks for the identity: no instance exists. *)
Theorem X_constructor_needs_token env b e :
  result_of (getRequiredInput env "token") = Threw e ->
  new_Action env b = ([], Threw e).
Proof.
  unfold new_Action, getRequiredInput.
  destruct (getInput env "token" =? ""); cbn; intros H.
  - now injection H as ->.
  - discriminate H.
Qed.

Lemma X_constructor_needs_token_witness :
  new_Action tokenless_env quiet_bot
  = ([], Threw (mkError tokenless_env "Error"
                  "Input required and not supplied: token")).
Proof.
  apply (X_constructor_needs_token tokenless_env quiet_bot). reflexivity.
Defined.

(** ** The metrics phase *)

Lemma rate_limit_requests_app t1 t2 :
  rate_limit_requests (t1 ++ t2)
  = (rate_limit_requests t1 ++ rate_limit_requests t2)%list.
Proof. apply flat_map_app. Qed.

Lemma before_metrics_no_request t :
  Forall before_metrics t -> rate_limit_requests t = [].
Proof.
  induction 1 as [|ev t Hev _ IH]; [reflexivity|].
  destruct ev; cbn in *; try contradiction; auto.
Qed.

Lemma run_rate_limit_requests act env :
  refuses env = false ->
  rate_limit_requests (trace_of (run act env))
  = rate_limit_requests (trace_of (emit_metrics act env)).
Proof.
  intros Hr. rewrite (run_passes _ _ Hr). cbn [trace_of fst].
  rewrite !rate_limit_requests_app.
  rewrite (before_metrics_no_request _ (route_before_metrics act env)).
  now rewrite (before_metrics_no_request _ (caught_trace_before_metrics act env)).
Qed.

Lemma run_carries_tags env b tr act :
  new_Action env b = (tr, Returned act) ->
  Forall (carries_tags (run_tags act env)) (trace_of (run act env)).
Proof.
  intros Hnew. pose proof (username_resolved _ _ _ _ Hnew) as Hu.
  assert (Hm : forall t,
             Forall (carries_tags (run_tags act env))
               (trace_of (trackMetric act env t))).
  { intros t. rewrite (trackMetric_trace _ _ _ _ Hu). unfold metric_events.
    destruct (aiHandle env); repeat constructor. }
  destruct (refuses env) eqn:Hr.
  - rewrite (run_refused _ _ Hr). repeat constructor.
  - rewrite (run_passes _ _ Hr). cbn [trace_of fst].
    repeat (apply Forall_app; split).
    + destruct (route_trace act env) as [H | [h H]];
        rewrite H; repeat constructor.
    + unfold caught_trace.
      destruct (result_of (route act env)); [constructor|].
      unfold on_caught, safeLog, error, read_message.
      destruct e; destruct (aiHandle env); trace_steps; exact I.
    + unfold emit_metrics. trace_steps_with ltac:(apply Hm). exact I.
Qed.

Lemma carries_tags_samples p t :
  Forall (carries_tags p) t ->
  Forall (fun m => mt_properties m = p) (sink_samples t).
Proof.
  induction 1 as [|ev t Hev _ IH]; [constructor|].
  destruct ev; cbn in *; auto.
Qed.

(** Every sample a run hands to the telemetry handle carries the same
    [properties]: [owner/repo], the issue number of the context as a
    string, the id of the bot and the resolved identity. *)
Theorem X_samples_share_tags env b tr act :
  new_Action env b = (tr, Returned act) ->
  Forall (fun m => mt_properties m = run_tags act env)
    (sink_samples (trace_of (run act env))).
Proof.
  intros Hnew. apply carries_tags_samples, (run_carries_tags _ _ _ _ Hnew).
Qed.

Lemma X_samples_share_tags_witness :
  Forall (fun m => mt_properties m
                   = {| prop_repo := "o/r"; prop_issue := "42";
                        prop_id := "sample-bot"; prop_user := "octocat" |})
    (sink_samples (trace_of (run octo_action labeled_env))).
Proof.
  apply (X_samples_share_tags labeled_env quiet_bot sample_start octo_action).
  reflexivity.
Defined.

(** When the context has no issue number, the [issue] tag of every
    sample is the text [undefined]. *)
Theorem X_issue_tag_undefined env b tr act :
  new_Action env b = (tr, Returned act) ->
  ctx_issue_number (context env) = None ->
  Forall (fun m => prop_issue (mt_properties m) = "undefined")
    (sink_samples (trace_of (run act env))).
Proof.
  intros Hnew Hn.
  pose proof (carries_tags_samples _ _ (run_carries_tags _ _ _ _ Hnew)) as H.
  eapply Forall_impl; [|exact H].
  intros m ->. unfold run_tags. cbn. now rewrite Hn.
Qed.

Lemma X_issue_tag_undefined_witness :
  Forall (fun m => prop_issue (mt_properties m) = "undefined")
    (sink_samples (trace_of (run octo_action schedule_env)))
  /\ length (sink_samples (trace_of (run octo_action schedule_env))) = 4.
Proof.
  split; [|reflexivity].
  apply (X_issue_tag_undefined schedule_env quiet_bot sample_start octo_action);
    reflexivity.
Defined.

(** A run makes no [trackMetric] call only when it is refused, that is
    when an error logging issue is configured and the owner, the
    repository and the issue number of the payload all equal it. *)
Theorem X_metrics_skipped_only_on_refusal act env :
  tracked (trace_of (run act env)) = [] ->
  exists eli i,
    errorLoggingIssue env = Some eli
    /\ repo_owner (ctx_repo (context env)) = eli_owner eli
    /\ repo_name (ctx_repo (context env)) = eli_repo eli
    /\ payload_issue (ctx_payload (context env)) = Some i
    /\ pi_number i = eli_issue eli.
Proof.
  intros Ht. destruct (refuses env) eqn:Hr.
  - unfold refuses in Hr.
    destruct (errorLoggingIssue env) as [eli|]; [|discriminate].
    destruct (payload_issue (ctx_payload (context env))) as [i|];
      [|now rewrite andb_false_r in Hr].
    apply andb_true_iff in Hr as [Hr Hnum].
    apply andb_true_iff in Hr as [Hrepo Hown].
    exists eli, i. repeat split.
    + now apply String.eqb_eq.
    + now apply String.eqb_eq.
    + now apply Z.eqb_eq.
  - exfalso. rewrite (proj1 (run_tracked act env Hr)) in Ht.
    destruct (emit_metrics_starts act env) as [rest Hrest].
    rewrite Hrest in Ht. discriminate Ht.
Qed.

Lemma X_metrics_skipped_witness :
  exists eli i,
    errorLoggingIssue refused_env = Some eli
    /\ repo_owner (ctx_repo (context refused_env)) = eli_owner eli
    /\ repo_name (ctx_repo (context refused_env)) = eli_repo eli
    /\ payload_issue (ctx_payload (context refused_env)) = Some i
    /\ pi_number i = eli_issue eli.
Proof.
  apply (X_metrics_skipped_only_on_refusal octo_action refused_env).
  reflexivity.
Defined.

(** When the rate-limit request is rejected, [run] throws the reason of
    the rejection: the request count is the only sample, and none of the
    three usage samples is produced. *)
Theorem X_rate_limit_rejected env b tr act x :
  new_Action env b = (tr, Returned act) ->
  refuses env = false ->
  sink_accepts env ->
  getRateLimit env (token act) = Rejected x ->
  result_of (run act env) = Threw x
  /\ tracked (trace_of (run act env))
     = [{| tm_name := "octokit_request_count";
           tm_value := getNumRequests env |}]
  /\ rate_limit_requests (trace_of (run act env)) = [token act].
Proof.
  intros Hnew Hr Hs Hl.
  pose proof (username_resolved _ _ _ _ Hnew) as Hu.
  assert (He : emit_metrics act env
               = ((metric_events act env (identity_of env act)
                     {| tm_name := "octokit_request_count";
                        tm_value := getNumRequests env |}
                   ++ [EvGetRateLimit (token act)])%list, Threw x)).
  { unfold emit_metrics.
    erewrite bind_returned by (apply trackMetric_ok; eassumption).
    rewrite Hl. reflexivity. }
  rewrite (proj1 (run_tracked act env Hr)), (run_rate_limit_requests _ _ Hr).
  rewrite (run_passes _ _ Hr), He. cbn [trace_of result_of fst snd].
  unfold metric_events. destruct (aiHandle env); repeat split.
Qed.

Lemma X_rate_limit_rejected_witness :
  result_of (run octo_action limit_rejected_env) = Threw network_down
  /\ tracked (trace_of (run octo_action limit_rejected_env))
     = [{| tm_name := "octokit_request_count";
           tm_value := getNumRequests limit_rejected_env |}]
  /\ rate_limit_requests (trace_of (run octo_action limit_rejected_env))
     = ["secret"].
Proof.
  apply (X_rate_limit_rejected limit_rejected_env quiet_bot sample_start
           octo_action network_down).
  - reflexivity.
  - reflexivity.
  - intros m. reflexivity.
  - reflexivity.
Defined.

(** When the telemetry handle throws on the first sample, [run] throws
    the same value at once: the rate-limit request is never made. *)
Theorem X_sink_failure_stops_metrics env b tr act h x :
  new_Action env b = (tr, Returned act) ->
  refuses env = false ->
  aiHandle env = Some h ->
  sink_trackMetric h
    (tagged act env (identity_of env act)
       {| tm_name := "octokit_request_count"; tm_value := getNumRequests env |})
  = Threw x ->
  result_of (run act env) = Threw x
  /\ rate_limit_requests (trace_of (run act env)) = []
  /\ tracked (trace_of (run act env))
     = [{| tm_name := "octokit_request_count";
           tm_value := getNumRequests env |}].
Proof.
  intros Hnew Hr Hh Hx.
  pose proof (username_resolved _ _ _ _ Hnew) as Hu.
  assert (He : emit_metrics act env
               = ([EvTrackMetric {| tm_name := "octokit_request_count";
                                    tm_value := getNumRequests env |};
                   EvSinkTrackMetric
                     (tagged act env (identity_of env act)
                        {| tm_name := "octokit_request_count";
                           tm_value := getNumRequests env |})], Threw x)).
  { unfold emit_metrics.
    rewrite (trackMetric_sink _ _ _ _ _ Hh Hu), Hx. reflexivity. }
  rewrite (proj1 (run_tracked act env Hr)), (run_rate_limit_requests _ _ Hr).
  rewrite (run_passes _ _ Hr), He. repeat split.
Qed.

Lemma X_sink_failure_witness :
  result_of (run octo_action sink_failing_env) = Threw sink_down
  /\ rate_limit_requests (trace_of (run octo_action sink_failing_env)) = []
  /\ tracked (trace_of (run octo_action sink_failing_env))
     = [{| tm_name := "octokit_request_count";
           tm_value := getNumRequests sink_failing_env |}].
Proof.
  apply (X_sink_failure_stops_metrics sink_failing_env quiet_bot sample_start
           octo_action failing_sink sink_down); reflexivity.
Defined.

Lemma no_telemetry_quiet t :
  Forall no_telemetry t -> sink_samples t = [] /\ exceptions t = [].
Proof.
  induction 1 as [|ev t Hev _ [IH1 IH2]]; [split; reflexivity|].
  destruct ev; cbn in *; try contradiction; auto.
Qed.

Lemma run_no_telemetry act env :
  aiHandle env = None -> Forall no_telemetry (trace_of (run act env)).
Proof.
  intros Hh. destruct (refuses env) eqn:Hr.
  - rewrite (run_refused _ _ Hr). repeat constructor.
  - rewrite (run_passes _ _ Hr). cbn [trace_of fst].
    repeat (apply Forall_app; split).
    + destruct (route_trace act env) as [H | [h H]];
        rewrite H; repeat constructor.
    + unfold caught_trace.
      destruct (result_of (route act env)); [constructor|].
      unfold on_caught, safeLog, error, read_message. rewrite Hh.
      destruct e; trace_steps; exact I.
    + unfold emit_metrics, trackMetric. rewrite Hh. trace_steps; exact I.
Qed.

(** Without a telemetry handle a run passes nothing to telemetry, and
    it still makes the rate-limit request: its result is a normal return
    when that request is answered and the reason of the rejection when
    it is rejected. *)
Theorem X_no_sink_still_requests_rate_limit act env :
  aiHandle env = None ->
  refuses env = false ->
  sink_samples (trace_of (run act env)) = []
  /\ exceptions (trace_of (run act env)) = []
  /\ rate_limit_requests (trace_of (run act env)) = [token act]
  /\ result_of (run act env)
     = match getRateLimit env (token act) with
       | Fulfilled _ => Returned tt
       | Rejected x => Threw x
       end.
Proof.
  intros Hh Hr.
  destruct (no_telemetry_quiet _ (run_no_telemetry act env Hh)) as [-> ->].
  rewrite (run_rate_limit_requests _ _ Hr), (run_passes _ _ Hr).
  unfold emit_metrics, trackMetric. rewrite Hh.
  destruct (getRateLimit env (token act)) as [u|x]; repeat split.
Qed.

Lemma X_no_sink_witness :
  sink_samples (trace_of (run octo_action limit_failing_env)) = []
  /\ exceptions (trace_of (run octo_action limit_failing_env)) = []
  /\ rate_limit_requests (trace_of (run octo_action limit_failing_env))
     = ["secret"]
  /\ result_of (run octo_action limit_failing_env) = Threw network_down.
Proof.
  apply (X_no_sink_still_requests_rate_limit octo_action limit_failing_env);
    reflexivity.
Defined.

(** ** Failure signals *)

Lemma reports_app t1 t2 : reports (t1 ++ t2) = (reports t1 ++ reports t2)%list.
Proof. apply flat_map_app. Qed.

Lemma failures_app t1 t2 :
  failures (t1 ++ t2) = (failures t1 ++ failures t2)%list.
Proof. apply flat_map_app. Qed.

Lemma logged_app t1 t2 : logged (t1 ++ t2) = (logged t1 ++ logged t2)%list.
Proof. apply flat_map_app. Qed.

Lemma exceptions_app t1 t2 :
  exceptions (t1 ++ t2) = (exceptions t1 ++ exceptions t2)%list.
Proof. apply flat_map_app. Qed.

Lemma silent_quiet t :
  Forall silent t ->
  reports t = [] /\ exceptions t = [] /\ failures t = [] /\ logged t = [].
Proof.
  induction 1 as [|ev t Hev _ (IH1 & IH2 & IH3 & IH4)];
    [repeat split|].
  destruct ev; cbn in *; try contradiction; auto.
Qed.

Lemma route_silent act env : Forall silent (trace_of (route act env)).
Proof.
  destruct (route_trace act env) as [H | [h H]]; rewrite H;
    repeat constructor.
Qed.

Lemma emit_metrics_silent act env :
  Forall silent (trace_of (emit_metrics act env)).
Proof.
  unfold emit_metrics, trackMetric.
  destruct (aiHandle env); trace_steps; exact I.
Qed.

(** The failure signals of a run that is not refused are those of its
    [catch] block. *)
Lemma run_signals act env :
  refuses env = false ->
  reports (trace_of (run act env)) = reports (caught_trace act env)
  /\ exceptions (trace_of (run act env)) = exceptions (caught_trace act env)
  /\ failures (trace_of (run act env)) = failures (caught_trace act env)
  /\ logged (trace_of (run act env)) = logged (caught_trace act env).
Proof.
  intros Hr. rewrite (run_passes _ _ Hr). cbn [trace_of fst].
  rewrite !reports_app, !exceptions_app, !failures_app, !logged_app.
  destruct (silent_quiet _ (route_silent act env)) as (-> & -> & -> & ->).
  destruct (silent_quiet _ (emit_metrics_silent act env))
    as (-> & -> & -> & ->).
  now rewrite !app_nil_r.
Qed.

(** When the routing returns (the hook fulfilled, or no hook matched),
    the run sends no report, tracks no exception, sets no failure marker
    and writes no log line. *)
Theorem X_success_is_silent act env :
  refuses env = false ->
  result_of (route act env) = Returned tt ->
  reports (trace_of (run act env)) = []
  /\ exceptions (trace_of (run act env)) = []
  /\ failures (trace_of (run act env)) = []
  /\ logged (trace_of (run act env)) = [].
Proof.
  intros Hr Hroute.
  destruct (run_signals act env Hr) as (-> & -> & -> & ->).
  unfold caught_trace. rewrite Hroute. repeat split.
Qed.

Lemma X_success_is_silent_witness :
  reports (trace_of (run octo_action labeled_env)) = []
  /\ exceptions (trace_of (run octo_action labeled_env)) = []
  /\ failures (trace_of (run octo_action labeled_env)) = []
  /\ logged (trace_of (run octo_action labeled_env)) = [].
Proof.
  apply (X_success_is_silent octo_action labeled_env); reflexivity.
Defined.

(** The [catch] block either sets the failure marker or writes the log
    line. *)
Lemma on_caught_cases act env e :
  (failures (trace_of (on_caught act env e)) = [opt_message e]
   /\ logged (trace_of (on_caught act env e)) = [])
  \/ (failures (trace_of (on_caught act env e)) = []
      /\ logged (trace_of (on_caught act env e)) = [fallback_text e]).
Proof.
  unfold on_caught, error, read_message.
  destruct e as [| |m s str]; try (right; split; reflexivity).
  rewrite bind_ret_l.
  destruct (username act) as [user|x]; [|right; split; reflexivity].
  cbn [await]. rewrite bind_ret_l.
  destruct (logErrorToIssue env _ true (token act)) as [[]|x] eqn:Hd;
    [|right; split; reflexivity].
  destruct (aiHandle env) as [h|].
  - destruct (sink_trackException h (JsObj m s str)) as [[]|y];
      [left | right]; split; reflexivity.
  - left; split; reflexivity.
Qed.

(** Every error the routing throws ends in exactly one of two ways: the
    failure marker is set with the message of the error and nothing is
    logged, or the fallback line is logged and no marker is set. *)
Theorem X_marker_or_log act env e :
  refuses env = false ->
  result_of (route act env) = Threw e ->
  (failures (trace_of (run act env)) = [opt_message e]
   /\ logged (trace_of (run act env)) = [])
  \/ (failures (trace_of (run act env)) = []
      /\ logged (trace_of (run act env)) = [fallback_text e]).
Proof.
  intros Hr Hroute.
  destruct (run_signals act env Hr) as (_ & _ & -> & ->).
  rewrite (caught_trace_threw _ _ _ Hroute).
  apply on_caught_cases.
Qed.

Lemma X_marker_or_log_witness :
  failures (trace_of (run (lazy_action labeled_env "octocat") labeled_env))
  = [Some "not implemented"]
  /\ logged (trace_of (run (lazy_action labeled_env "octocat") labeled_env))
     = [].
Proof.
  destruct (X_marker_or_log (lazy_action labeled_env "octocat") labeled_env
              (not_implemented labeled_env))
    as [H | [H _]]; [reflexivity | reflexivity | exact H | discriminate H].
Defined.

(** When the error-reporting channel rejects the report, the [catch]
    block is the submission of the report and the fallback log line: the
    exception is not passed to telemetry and the failure marker is not
    set. *)
Theorem X_rejected_delivery_only_logs env b tr act e x :
  new_Action env b = (tr, Returned act) ->
  readable e ->
  logErrorToIssue env (report_text act (identity_of env act) e) true
    (token act) = Rejected x ->
  on_caught act env e
  = ([EvLogErrorToIssue (report_text act (identity_of env act) e) true
        (token act);
      EvSafeLog (fallback_text e)], Returned tt).
Proof.
  intros Hnew He Hd.
  pose proof (username_resolved _ _ _ _ Hnew) as Hu.
  now rewrite (on_caught_error_threw _ _ _ _ _
                 (error_rejected _ _ _ _ _ He Hu Hd)).
Qed.

Lemma X_rejected_delivery_witness :
  on_caught (lazy_action undelivered_env "octocat") undelivered_env
    (not_implemented undelivered_env)
  = ([EvLogErrorToIssue
        (report_text (lazy_action undelivered_env "octocat") "octocat"
           (not_implemented undelivered_env)) true "secret";
      EvSafeLog (fallback_text (not_implemented undelivered_env))],
     Returned tt).
Proof.
  apply (X_rejected_delivery_only_logs undelivered_env
           (default_bot undelivered_env "lazy-bot") sample_start
           (lazy_action undelivered_env "octocat")
           (not_implemented undelivered_env) network_down).
  - reflexivity.
  - exact I.
  - reflexivity.
Defined.

(** When the channel accepts the report and the telemetry handle then
    throws on the exception record, the report has been delivered, the
    fallback line is logged as well, and the failure marker is not
    set. *)
Theorem X_exception_record_failure env b tr act e h x :
  new_Action env b = (tr, Returned act) ->
  readable e ->
  logErrorToIssue env (report_text act (identity_of env act) e) true
    (token act) = Fulfilled tt ->
  aiHandle env = Some h ->
  sink_trackException h e = Threw x ->
  on_caught act env e
  = ([EvLogErrorToIssue (report_text act (identity_of env act) e) true
        (token act);
      EvTrackException e;
      EvSafeLog (fallback_text e)], Returned tt).
Proof.
  intros Hnew He Hd Hh Hx.
  pose proof (username_resolved _ _ _ _ Hnew) as Hu.
  destruct e as [| |m s str]; try contradiction.
  unfold on_caught, error, read_message.
  rewrite bind_ret_l, Hu. cbn [await]. rewrite bind_ret_l.
  fold (report_text act (identity_of env act) (JsObj m s str)).
  rewrite Hd, Hh, Hx. reflexivity.
Qed.

Lemma X_exception_record_failure_witness :
  on_caught (lazy_action exception_failing_env "octocat") exception_failing_env
    (not_implemented exception_failing_env)
  = ([EvLogErrorToIssue
        (report_text (lazy_action exception_failing_env "octocat") "octocat"
           (not_implemented exception_failing_env)) true "secret";
      EvTrackException (not_implemented exception_failing_env);
      EvSafeLog (fallback_text (not_implemented exception_failing_env))],
     Returned tt).
Proof.
  apply (X_exception_record_failure exception_failing_env
           (default_bot exception_failing_env "lazy-bot") sample_start
           (lazy_action exception_failing_env "octocat")
           (not_implemented exception_failing_env)
           exception_failing_sink sink_down).
  - reflexivity.
  - exact I.
  - reflexivity.
  - reflexivity.
  - reflexivity.
Defined.

(** A caught value without [message] and [stack] (a thrown string, for
    one): the report shows [undefined] for both and the failure marker
    carries no message; the text of the value appears in neither. *)
Theorem X_thrown_value_without_message env b tr act e :
  new_Action env b = (tr, Returned act) ->
  readable e ->
  opt_message e = None ->
  opt_stack e = None ->
  logErrorToIssue env
    (render ("undefined" ++ nl ++ "undefined") (identity_of env act)
       (bot_id (bot act))) true (token act) = Fulfilled tt ->
  exception_accepted env e ->
  on_caught act env e
  = ((EvLogErrorToIssue
        (render ("undefined" ++ nl ++ "undefined") (identity_of env act)
           (bot_id (bot act))) true (token act)
      :: exception_events env e ++ [EvSetFailed None])%list, Returned tt).
Proof.
  intros Hnew He Hm Hs Hd Hx.
  pose proof (username_resolved _ _ _ _ Hnew) as Hu.
  assert (Ht : report_text act (identity_of env act) e
               = render ("undefined" ++ nl ++ "undefined")
                   (identity_of env act) (bot_id (bot act))).
  { unfold report_text, details_message. now rewrite Hm, Hs. }
  rewrite <- Ht in *. rewrite <- Hm.
  apply on_caught_error_ok, error_delivered; assumption.
Qed.

Lemma X_thrown_value_witness :
  on_caught (sample_action string_throwing_bot "octocat") labeled_env boom
  = ([EvLogErrorToIssue
        (render ("undefined" ++ nl ++ "undefined") "octocat" "string-bot")
        true "secret";
      EvTrackException boom;
      EvSetFailed None], Returned tt).
Proof.
  apply (X_thrown_value_without_message labeled_env string_throwing_bot
           sample_start (sample_action string_throwing_bot "octocat") boom).
  - reflexivity.
  - exact I.
  - reflexivity.
  - reflexivity.
  - reflexivity.
  - reflexivity.
Defined.

(** When a hook rejects with [null] or [undefined], [error] fails on its
    first read: no report is submitted, nothing reaches telemetry, no
    failure marker is set, and the log line is the name of the value. *)
Theorem X_nullish_rejection_only_logs act env e :
  refuses env = false ->
  result_of (route act env) = Threw e ->
  ~ readable e ->
  reports (trace_of (run act env)) = []
  /\ exceptions (trace_of (run act env)) = []
  /\ failures (trace_of (run act env)) = []
  /\ logged (trace_of (run act env)) = [js_String e].
Proof.
  intros Hr Hroute He.
  destruct (run_signals act env Hr) as (-> & -> & -> & ->).
  rewrite (caught_trace_threw _ _ _ Hroute), (on_caught_unreadable _ _ _ He).
  repeat split.
Qed.

Lemma X_nullish_rejection_witness :
  reports (trace_of (run (sample_action rejecting_bot "octocat") labeled_env))
  = []
  /\ exceptions
       (trace_of (run (sample_action rejecting_bot "octocat") labeled_env)) = []
  /\ failures
       (trace_of (run (sample_action rejecting_bot "octocat") labeled_env)) = []
  /\ logged
       (trace_of (run (sample_action rejecting_bot "octocat") labeled_env))
     = ["undefined"].
Proof.
  apply (X_nullish_rejection_only_logs
           (sample_action rejecting_bot "octocat") labeled_env JsUndefined).
  - reflexivity.
  - reflexivity.
  - intros H. exact H.
Defined.

Lemma on_caught_marker act env e m :
  In m (failures (trace_of (on_caught act env e))) ->
  m = opt_message e
  /\ exists user,
       username act = Fulfilled user
       /\ logErrorToIssue env (report_text act user e) true (token act)
          = Fulfilled tt.
Proof.
  unfold on_caught, error, read_message.
  destruct e as [| |msg s str]; try (intros []).
  rewrite bind_ret_l.
  destruct (username act) as [user|x]; [|intros []].
  cbn [await]. rewrite bind_ret_l.
  fold (report_text act user (JsObj msg s str)).
  destruct (logErrorToIssue env _ true (token act)) as [[]|x] eqn:Hd;
    [|intros []].
  assert (Hok : m = msg ->
                m = opt_message (JsObj msg s str)
                /\ exists user0, Fulfilled user = Fulfilled user0
                   /\ logErrorToIssue env
                        (report_text act user0 (JsObj msg s str)) true
                        (token act) = Fulfilled tt).
  { intros ->. split; [reflexivity|]. exists user. split; [reflexivity|].
    exact Hd. }
  destruct (aiHandle env) as [h|].
  - destruct (sink_trackException h (JsObj msg s str)) as [[]|y]; cbn.
    + intros [<- | []]. now apply Hok.
    + intros [].
  - cbn. intros [<- | []]. now apply Hok.
Qed.

(** The failure marker is only ever set for an error the routing threw,
    with the message of that error, and after the error-reporting
    channel accepted its report. *)
Theorem X_marker_requires_delivery act env m :
  In m (failures (trace_of (run act env))) ->
  exists e user,
    result_of (route act env) = Threw e
    /\ m = opt_message e
    /\ username act = Fulfilled user
    /\ logErrorToIssue env (report_text act user e) true (token act)
       = Fulfilled tt.
Proof.
  intros Hin. destruct (refuses env) eqn:Hr.
  { rewrite (run_refused _ _ Hr) in Hin. destruct Hin. }
  destruct (run_signals act env Hr) as (_ & _ & Hf & _).
  rewrite Hf in Hin. unfold caught_trace in Hin.
  destruct (result_of (route act env)) as [[]|e] eqn:Hroute; [destruct Hin|].
  destruct (on_caught_marker _ _ _ _ Hin) as (Hm & user & Hu & Hd).
  exists e, user. auto.
Qed.

Lemma X_marker_requires_delivery_witness :
  exists e user,
    result_of (route (lazy_action labeled_env "octocat") labeled_env) = Threw e
    /\ Some "not implemented" = opt_message e
    /\ username (lazy_action labeled_env "octocat") = Fulfilled user
    /\ logErrorToIssue labeled_env
         (report_text (lazy_action labeled_env "octocat") user e) true
         (token (lazy_action labeled_env "octocat"))
       = Fulfilled tt.
Proof.
  apply (X_marker_requires_delivery (lazy_action labeled_env "octocat")
           labeled_env (Some "not implemented")).
  left. reflexivity.
Defined.

(** The result of [run] never depends on what the hook or the failure
    reporting did: a refused run returns, and any other run ends as its
    metrics phase ends. *)
Theorem X_result_is_metrics_result act env :
  result_of (run act env)
  = if refuses env then Returned tt else result_of (emit_metrics act env).
Proof.
  destruct (refuses env) eqn:Hr.
  - now rewrite (run_refused _ _ Hr).
  - now rewrite (run_passes _ _ Hr).
Qed.
